(** * Digit-sequence predictor scripts: a shallow embedding and its properties

    The repository holds five stand-alone Python scripts.  Two of them
    ([Prediction_1755397003498.py], [Prediction_1755397014428.py]) run the
    numerology transform ("Mode A"); three ([WinLose_1755398394420.py],
    [WinLose_1755398401488.py], [WinLose_1755398410429.py]) forward the first
    drawn number ("Mode B").

    The embedding follows the scripts statement by statement, after the HTTP
    fetch: the input is the parsed response, the result is what the script
    prints, or the exception that leaves the script uncaught.

    Scope of the model.
    - Python integers are [Z].  CPython's optional cap on the length of
      decimal conversions is an interpreter setting and is not modelled.
    - Python strings are [string]; the characters are read as ASCII code
      points.  [int] of a string follows CPython's [PyLong_FromString] for
      base 10 on ASCII input.
    - JSON scalars are strings, integers, booleans and null; floats and
      nested containers as field values are left out.
    - A draw record is a dictionary from keys to scalars; the response is a
      dictionary of dictionaries whose entries are lists of records. *)

From Stdlib Require Import ZArith Ascii String List Lia Permutation.
From stdpp Require Import base gmap strings pretty list.
From Equations Require Import Equations.

Local Open Scope Z_scope.

(** ** Exceptions and the error monad *)

Inductive exn : Type :=
| ValueError
| IndexError
| KeyError
| TypeError.

Inductive res (A : Type) : Type :=
| Ok (a : A)
| Raise (e : exn).
Arguments Ok {A} a.
Arguments Raise {A} e.

Definition bind {A B : Type} (m : res A) (k : A -> res B) : res B :=
  match m with
  | Ok a => k a
  | Raise e => Raise e
  end.

Notation "x <~ m ; k" := (bind m (fun x => k))
  (at level 100, m at next level, right associativity).

(** ** Python values found in a record *)

Inductive pyval : Type :=
| VStr (s : string)
| VInt (z : Z)
| VBool (b : bool)
| VNone.

(** [str(v)] *)
Definition py_str (v : pyval) : string :=
  match v with
  | VStr s => s
  | VInt z => pretty z
  | VBool true => "True"
  | VBool false => "False"
  | VNone => "None"
  end.

(** ** [int] of a string, base 10 *)

(** [Py_ISSPACE]: tab, line feed, vertical tab, form feed, carriage return,
    space. *)
Definition is_space (c : ascii) : bool :=
  let n := N_of_ascii c in
  ((9 <=? n) && (n <=? 13) || (n =? 32))%N.

Definition digit_value (c : ascii) : option Z :=
  let n := N_of_ascii c in
  if ((48 <=? n) && (n <=? 57))%N then Some (Z.of_N n - 48) else None.

Definition is_underscore (c : ascii) : bool := (N_of_ascii c =? 95)%N.

Fixpoint skip_space (s : string) : string :=
  match s with
  | String c r => if is_space c then skip_space r else s
  | EmptyString => s
  end.

(** The scanning loop over digits and single underscores: [prev_us] tells
    that the previous character was an underscore, [acc] is the value so
    far.  Returns the value and the unread rest, or [None] on a doubled or
    trailing underscore. *)
Fixpoint scan_digits (s : string) (prev_us : bool) (acc : Z)
  : option (Z * string) :=
  match s with
  | String c r =>
      match digit_value c with
      | Some d => scan_digits r false (10 * acc + d)
      | None =>
          if is_underscore c
          then (if prev_us then None else scan_digits r true acc)
          else (if prev_us then None else Some (acc, s))
      end
  | EmptyString => if prev_us then None else Some (acc, s)
  end.

(** After the sign: no leading underscore, at least one digit, then only
    trailing white space. *)
Definition parse_magnitude (s : string) : option Z :=
  match s with
  | String c _ =>
      match digit_value c with
      | Some _ =>
          match scan_digits s false 0 with
          | Some (v, rest) =>
              match skip_space rest with
              | EmptyString => Some v
              | String _ _ => None
              end
          | None => None
          end
      | None => None
      end
  | EmptyString => None
  end.

Definition int_of_string (s : string) : res Z :=
  let s1 := skip_space s in
  let '(neg, s2) :=
    match s1 with
    | String "+" r => (false, r)
    | String "-" r => (true, r)
    | _ => (false, s1)
    end in
  match parse_magnitude s2 with
  | Some v => Ok (if neg : bool then - v else v)
  | None => Raise ValueError
  end.

(** [int(v)] *)
Definition py_int (v : pyval) : res Z :=
  match v with
  | VStr s => int_of_string s
  | VInt z => Ok z
  | VBool b => Ok (if b then 1 else 0)
  | VNone => Raise TypeError
  end.

(** ** String indexing [s[i]], with negative indices *)

Definition py_len (s : string) : Z := Z.of_nat (String.length s).

Definition str_index (s : string) (i : Z) : res string :=
  let j := if i <? 0 then i + py_len s else i in
  if (j <? 0) || (py_len s <=? j) then Raise IndexError
  else match String.get (Z.to_nat j) s with
       | Some c => Ok (String c EmptyString)
       | None => Raise IndexError
       end.

(** ** The digit-sum loop *)

(** [sum(int(d) for d in s)], left to right. *)
Fixpoint sum_int_chars (s : string) (acc : Z) : res Z :=
  match s with
  | EmptyString => Ok acc
  | String c r =>
      v <~ int_of_string (String c EmptyString);
      sum_int_chars r (acc + v)
  end.

Definition digit_sum (total : Z) : res Z := sum_int_chars (pretty total) 0.

(** *** Facts about decimal rendering needed for the loop *)

Lemma digit_value_pretty_char (x : N) :
  (x < 10)%N -> digit_value (pretty_N_char x) = Some (Z.of_N x).
Proof.
  intros Hx.
  assert (x = 0 \/ x = 1 \/ x = 2 \/ x = 3 \/ x = 4 \/ x = 5 \/ x = 6
          \/ x = 7 \/ x = 8 \/ x = 9)%N as Hc by lia.
  repeat (destruct Hc as [-> | Hc]; [reflexivity |]). subst x. reflexivity.
Qed.

Lemma int_of_string_digit_char (c : ascii) (d : Z) :
  digit_value c = Some d -> int_of_string (String c EmptyString) = Ok d.
Proof.
  destruct c as [[] [] [] [] [] [] [] []]; vm_compute;
    intros Hd; try discriminate Hd; injection Hd as <-; reflexivity.
Qed.

Lemma string_app_cons (x : ascii) (a b : string) :
  String x a +:+ b = String x (a +:+ b).
Proof. reflexivity. Qed.

Lemma string_app_assoc (a b c : string) : (a +:+ b) +:+ c = a +:+ (b +:+ c).
Proof.
  induction a as [| x a IH]; [reflexivity |].
  rewrite !string_app_cons, IH. reflexivity.
Qed.

Lemma sum_int_chars_app (a b : string) (acc : Z) :
  sum_int_chars (a +:+ b) acc = (v <~ sum_int_chars a acc; sum_int_chars b v).
Proof.
  revert acc. induction a as [| c a IH]; intros acc; [reflexivity |].
  rewrite string_app_cons. cbn [sum_int_chars].
  destruct (int_of_string (String c EmptyString)) as [v | e]; cbn [bind];
    [apply IH | reflexivity].
Qed.

Lemma pretty_N_go_app (x : N) (s : string) :
  pretty_N_go x s = pretty_N_go x EmptyString +:+ s.
Proof.
  revert s. induction (N.lt_wf_0 x) as [x _ IH]. intros s.
  destruct (N.eq_dec x 0%N) as [-> | Hx].
  - rewrite !pretty_N_go_0. reflexivity.
  - assert (0 < x)%N as Hpos by lia.
    rewrite (pretty_N_go_step x s), (pretty_N_go_step x EmptyString) by exact Hpos.
    assert (x `div` 10 < x)%N as Hlt by (apply N.div_lt; lia).
    rewrite (IH _ Hlt (String _ s)), (IH _ Hlt (String _ EmptyString)).
    rewrite string_app_assoc. reflexivity.
Qed.

(** The digit sum of a number exists, is at most the number, is positive
    with it, agrees with it modulo 9, and is strictly smaller from 10 on. *)
Lemma sum_int_chars_pretty_N_go (x : N) (acc : Z) :
  exists t : Z,
    sum_int_chars (pretty_N_go x EmptyString) acc = Ok (acc + t)
    /\ 0 <= t <= Z.of_N x
    /\ (0 < Z.of_N x -> 0 < t)
    /\ (10 <= Z.of_N x -> t < Z.of_N x)
    /\ t mod 9 = Z.of_N x mod 9.
Proof.
  revert acc. induction (N.lt_wf_0 x) as [x _ IH]. intros acc.
  destruct (N.eq_dec x 0%N) as [-> | Hx].
  - exists 0. rewrite pretty_N_go_0. cbn. rewrite Z.add_0_r. repeat split; lia.
  - assert (0 < x)%N as Hpos by lia.
    rewrite (pretty_N_go_step x EmptyString) by exact Hpos.
    rewrite pretty_N_go_app, sum_int_chars_app.
    assert (x `div` 10 < x)%N as Hlt by (apply N.div_lt; lia).
    destruct (IH _ Hlt acc) as (t & Ht & Hb & Hp & Hs & H9). rewrite Ht.
    cbn [bind sum_int_chars].
    assert (x `mod` 10 < 10)%N as Hm by (apply N.mod_lt; lia).
    rewrite (int_of_string_digit_char _ _ (digit_value_pretty_char _ Hm)).
    cbn [bind sum_int_chars].
    exists (t + Z.of_N (x `mod` 10)). split; [f_equal; lia |].
    pose proof (N.div_mod x 10 ltac:(lia)) as Hdm.
    apply (f_equal Z.of_N) in Hdm. rewrite N2Z.inj_add, N2Z.inj_mul in Hdm.
    change (Z.of_N 10) with 10 in Hdm.
    assert (0 <= Z.of_N (x `mod` 10) < 10) as Hm'.
    { split; [apply N2Z.is_nonneg |]. change 10 with (Z.of_N 10).
      apply N2Z.inj_lt. exact Hm. }
    assert (0 < Z.of_N x) as Hpos'
      by (change 0 with (Z.of_N 0); apply N2Z.inj_lt; exact Hpos).
    clear IH Ht Hlt Hm Hpos Hx.
    generalize dependent (Z.of_N (x `mod` 10)).
    generalize dependent (Z.of_N (x `div` 10)).
    generalize dependent (Z.of_N x).
    intros n Hn q Hb Hp Hs H9 m Hdm Hm.
    repeat split; try lia.
    subst n. rewrite Z.add_mod, H9, <- Z.add_mod by lia.
    replace (10 * q + m) with (q + m + q * 9) by lia.
    rewrite Z.mod_add by lia. reflexivity.
Qed.

Lemma digit_sum_spec (total : Z) :
  0 <= total ->
  exists t : Z, digit_sum total = Ok t /\ 0 <= t <= total
                /\ (0 < total -> 0 < t)
                /\ (9 < total -> t < total)
                /\ t mod 9 = total mod 9.
Proof.
  intros Hnn. unfold digit_sum. destruct total as [| p | p]; [| | lia].
  - exists 0. cbn. repeat split; lia.
  - change (pretty (Z.pos p)) with (pretty_N_go (N.pos p) EmptyString).
    destruct (sum_int_chars_pretty_N_go (N.pos p) 0)
      as (t & Ht & Hb & Hp & Hs & H9).
    exists t. rewrite Ht. cbn in *. repeat split; lia.
Qed.

Lemma digit_sum_decreases (total t : Z) :
  9 < total -> digit_sum total = Ok t -> 0 <= t < total.
Proof.
  intros Hgt Hs.
  destruct (digit_sum_spec total ltac:(lia)) as (t' & Ht' & Hb & _ & Hd & _).
  assert (t' = t) as <- by congruence. lia.
Qed.

(** Keeps the equation of a tested value in scope of the branch. *)
Definition inspect {A : Type} (a : A) : {b : A | a = b} := exist _ a eq_refl.

(** [while total > 9: total = sum(int(d) for d in str(total))] *)
Equations? reduce (total : Z) : res Z by wf (Z.to_nat total) lt :=
  reduce total with inspect (9 <? total) := {
    | exist _ true Hgt with inspect (digit_sum total) := {
        | exist _ (Ok t) Hs => reduce t
        | exist _ (Raise e) _ => Raise e };
    | exist _ false _ => Ok total }.
Proof.
  apply Z.ltb_lt in Hgt.
  pose proof (digit_sum_decreases total t Hgt Hs). lia.
Qed.

(** ** Dictionaries, lists and the printed result *)

(** A draw record, the object under ["data"], and the parsed response. *)
Abbreviation record := (gmap string pyval).
Abbreviation payload := (gmap string (list (gmap string pyval))).
Abbreviation response := (gmap string (gmap string (list (gmap string pyval)))).

(** [d[key]] *)
Definition dict_getitem (d : record) (key : string) : res pyval :=
  match d !! key with
  | Some v => Ok v
  | None => Raise KeyError
  end.

(** [d.get(key, dflt)] *)
Definition dict_get (d : record) (key : string) (dflt : pyval) : pyval :=
  default dflt (d !! key).

(** [''.join(l)] *)
Fixpoint str_join (l : list string) : string :=
  match l with
  | [] => EmptyString
  | s :: r => s +:+ str_join r
  end.

(** [max(l, key=key)]: the first item whose key is the largest; the keys
    are computed in list order, and a failing key ends the search. *)
Fixpoint max_loop {A : Type} (key : A -> res Z) (l : list A)
  (maxitem : A) (maxval : Z) : res A :=
  match l with
  | [] => Ok maxitem
  | item :: r =>
      val <~ key item;
      if maxval <? val then max_loop key r item val
      else max_loop key r maxitem maxval
  end.

Definition py_max {A : Type} (key : A -> res Z) (l : list A) : res A :=
  match l with
  | [] => Raise ValueError
  | item :: r => val <~ key item; max_loop key r item val
  end.

(** What a run leaves behind: the mapping handed to [json.dumps] and
    printed (keys in insertion order), or the exception that ends the
    script with a traceback. *)
Inductive outcome : Type :=
| Printed (m : list (string * pyval))
| Uncaught (e : exn).

Definition run (m : res (list (string * pyval))) : outcome :=
  match m with
  | Ok r => Printed r
  | Raise e => Uncaught e
  end.

Definition no_data : list (string * pyval) :=
  [("error"%string, VStr "No data available.")].

Definition no_issues : list (string * pyval) :=
  [("error"%string, VStr "No issues available.")].

(** [if data and 'data' in data and 'list' in data['data']: ... else: ...]
    A failed fetch gives a dictionary with the single key ['error'] (or
    [None], in the last script); either way the key ['data'] is missing. *)
Definition with_issues (data : response)
  (k : list record -> outcome) (otherwise : outcome) : outcome :=
  match data !! "data"%string with
  | Some d =>
      match d !! "list"%string with
      | Some issues => k issues
      | None => otherwise
      end
  | None => otherwise
  end.

(** ** Mode A, first script *)

Module Prediction_1755397003498.

(** Lines 20 to 56, after [issues = data['data']['list']]. *)
Definition result (issues : list record) : res (list (string * pyval)) :=
  highest_issue <~
    py_max (fun x => v <~ dict_getitem x "issueNumber"; py_int v) issues;
  hv <~ dict_getitem highest_issue "issueNumber";
  hn <~ py_int hv;
  let next_issue_number := py_str (VInt (hn + 1)) in
  let all_numbers_str :=
    str_join (map (fun item => py_str (dict_get item "number" (VInt 0)))
                issues) in
  c0 <~ str_index all_numbers_str 0;
  first_num <~ int_of_string c0;
  let length := py_len all_numbers_str in
  let pos_index := length - first_num in
  c1 <~ str_index all_numbers_str pos_index;
  digit_at_place <~ int_of_string c1;
  next_digit <~
    (if 0 <=? pos_index - 1
     then c2 <~ str_index all_numbers_str (pos_index - 1); int_of_string c2
     else Ok 0);
  c3 <~ str_index all_numbers_str (-1);
  last_digit <~ int_of_string c3;
  let total := (digit_at_place + next_digit) * last_digit in
  result_digit <~ reduce total;
  let size : string := if result_digit <=? 4 then "Small" else "Big" in
  all_numbers <~ int_of_string all_numbers_str;
  Ok [("next_issue_number"%string, VStr next_issue_number);
      ("all_numbers"%string, VInt all_numbers);
      ("computed_result"%string,
        VStr (py_str (VInt result_digit) +:+ " " +:+ size))].

Definition main (data : response) : outcome :=
  with_issues data (fun issues => run (result issues)) (Printed no_data).

End Prediction_1755397003498.

(** ** Mode A, second script *)

Module Prediction_1755397014428.

(** Lines 34 to 67: the same statements, with the issue number computed
    after the digit transform. *)
Definition result (issues : list record) : res (list (string * pyval)) :=
  let all_numbers_str :=
    str_join (map (fun item => py_str (dict_get item "number" (VInt 0)))
                issues) in
  c0 <~ str_index all_numbers_str 0;
  first_num <~ int_of_string c0;
  let length := py_len all_numbers_str in
  let pos_index := length - first_num in
  c1 <~ str_index all_numbers_str pos_index;
  digit_at_place <~ int_of_string c1;
  next_digit <~
    (if 0 <=? pos_index - 1
     then c2 <~ str_index all_numbers_str (pos_index - 1); int_of_string c2
     else Ok 0);
  c3 <~ str_index all_numbers_str (-1);
  last_digit <~ int_of_string c3;
  let total := (digit_at_place + next_digit) * last_digit in
  result_digit <~ reduce total;
  let size : string := if result_digit <=? 4 then "Small" else "Big" in
  highest_issue <~
    py_max (fun x => v <~ dict_getitem x "issueNumber"; py_int v) issues;
  hv <~ dict_getitem highest_issue "issueNumber";
  hn <~ py_int hv;
  let next_issue_number := py_str (VInt (hn + 1)) in
  all_numbers <~ int_of_string all_numbers_str;
  Ok [("next_issue_number"%string, VStr next_issue_number);
      ("all_numbers"%string, VInt all_numbers);
      ("computed_result"%string,
        VStr (py_str (VInt result_digit) +:+ " " +:+ size))].

Definition main (data : response) : outcome :=
  with_issues data (fun issues => run (result issues)) (Printed no_data).

End Prediction_1755397014428.

(** ** Mode B *)

Module WinLose_1755398394420.

(** Lines 36 to 44. *)
Definition on_issues (issues : list record) : outcome :=
  match issues with
  | first :: _ =>
      run (first_number <~ py_int (dict_get first "number" (VInt 0));
           Ok [("number"%string, VInt first_number)])
  | [] => Printed no_issues
  end.

Definition main (data : response) : outcome :=
  with_issues data on_issues (Printed no_data).

End WinLose_1755398394420.

Module WinLose_1755398401488.

(** Lines 36 to 44; the file differs from the previous one in the request
    payload only. *)
Definition on_issues (issues : list record) : outcome :=
  match issues with
  | first :: _ =>
      run (first_number <~ py_int (dict_get first "number" (VInt 0));
           Ok [("number"%string, VInt first_number)])
  | [] => Printed no_issues
  end.

Definition main (data : response) : outcome :=
  with_issues data on_issues (Printed no_data).

End WinLose_1755398401488.

Module WinLose_1755398410429.

(** Lines 24 to 31. *)
Definition on_issues (issues : list record) : outcome :=
  match issues with
  | first :: _ =>
      run (first_number <~ py_int (dict_get first "number" (VInt 0));
           Ok [("number"%string, VInt first_number)])
  | [] => Printed no_issues
  end.

Definition main (data : response) : outcome :=
  with_issues data on_issues (Printed no_data).

End WinLose_1755398410429.

(** ** Sample inputs *)

Definition mk_record (number issueNumber : pyval) : record :=
  <["number"%string := number]> (<["issueNumber"%string := issueNumber]> ∅).

Definition mk_response (issues : list record) : response :=
  <["data"%string := <["list"%string := issues]> ∅]> ∅.

Definition history_4917 : list record :=
  [mk_record (VStr "4") (VStr "104"); mk_record (VStr "9") (VStr "103");
   mk_record (VStr "1") (VStr "102"); mk_record (VStr "7") (VStr "101")].


Definition history_unordered : list record :=
  [mk_record (VStr "3") (VStr "20250817100051");
   mk_record (VStr "8") (VInt 20250817100053);
   mk_record (VStr "6") (VStr "20250817100052")].

Definition history_7 : list record := [mk_record (VStr "7") (VStr "100")].

Definition history_31 : list record :=
  [mk_record (VStr "3") (VStr "12"); mk_record (VStr "1") (VStr "11")].

Definition history_malformed : list record :=
  [mk_record (VStr "abc") (VStr "100")].

(** * Definitions used to state the properties *)

(** ** The statement blocks of Mode A

    Both Mode A scripts are made of the same three blocks of statements,
    run in a different order.  The blocks are named here, and each script
    is shown to be their composition ([result_1_blocks],
    [result_2_blocks]). *)

Definition issue_key (x : record) : res Z :=
  v <~ dict_getitem x "issueNumber"; py_int v.

Definition next_issue_number (issues : list record) : res string :=
  highest_issue <~ py_max issue_key issues;
  hv <~ dict_getitem highest_issue "issueNumber";
  hn <~ py_int hv;
  Ok (py_str (VInt (hn + 1))).

Definition all_numbers_str (issues : list record) : string :=
  str_join (map (fun item => py_str (dict_get item "number" (VInt 0))) issues).

(** [int(s[i])] *)
Definition int_at (s : string) (i : Z) : res Z :=
  c <~ str_index s i; int_of_string c.

Definition result_digit (s : string) : res Z :=
  first_num <~ int_at s 0;
  let pos_index := py_len s - first_num in
  digit_at_place <~ int_at s pos_index;
  next_digit <~ (if 0 <=? pos_index - 1 then int_at s (pos_index - 1) else Ok 0);
  last_digit <~ int_at s (-1);
  reduce ((digit_at_place + next_digit) * last_digit).

Definition size_of (d : Z) : string := if d <=? 4 then "Small" else "Big".

Definition mapping (next : string) (all_numbers d : Z)
  : list (string * pyval) :=
  [("next_issue_number"%string, VStr next);
   ("all_numbers"%string, VInt all_numbers);
   ("computed_result"%string, VStr (pretty d +:+ " " +:+ size_of d))].

(** Case analysis on the outermost computation that is sequenced. *)
Ltac bind_step :=
  match goal with
  | |- context [bind ?m _] => destruct m; cbn [bind]
  | |- context [if ?b then _ else _] => destruct b
  end.

(** ** Digits, digit strings and the transform in the specification's words *)

(** The single digit that repeated digit-summing reaches, in closed form:
    0 for 0, and otherwise the number in 1..9 congruent to [n] modulo 9.
    [reduce_digital_root] below shows that the loop returns it. *)
Definition digital_root (n : Z) : Z :=
  if n =? 0 then 0 else 1 + (n - 1) mod 9.

Definition is_digit (c : ascii) : bool :=
  match digit_value c with
  | Some _ => true
  | None => false
  end.

Fixpoint is_digit_string (s : string) : bool :=
  match s with
  | EmptyString => true
  | String c r => is_digit c && is_digit_string r
  end.

(** The digit at position [i], counted from the start. *)
Definition digit_at (s : string) (i : nat) : Z :=
  match String.get i s with
  | Some c => default 0 (digit_value c)
  | None => 0
  end.

(** The string read as a base-10 numeral, continuing from [acc]. *)
Fixpoint digits_value (s : string) (acc : Z) : Z :=
  match s with
  | EmptyString => acc
  | String c r => digits_value r (10 * acc + default 0 (digit_value c))
  end.

(** Steps 8 to 10 and 13: the total, its reduction to one digit, the label
    and the result text. *)
Definition computed_from (digit_at_place next_digit last_digit : Z) : string :=
  let total := (digit_at_place + next_digit) * last_digit in
  let d := digital_root total in
  let size : string := if d <=? 4 then "Small" else "Big" in
  pretty d +:+ " " +:+ size.

(** Steps 3 to 7, with positions counted from the start of [digits]. *)
Definition spec_computed_result (digits : string) : string :=
  let length := Z.of_nat (String.length digits) in
  let first := digit_at digits 0 in
  let position := length - first in
  let digit_at_place := digit_at digits (Z.to_nat position) in
  let next_digit :=
    if 0 <=? position - 1 then digit_at digits (Z.to_nat (position - 1))
    else 0 in
  let last_digit := digit_at digits (Z.to_nat (length - 1)) in
  computed_from digit_at_place next_digit last_digit.

(** ** Responses, largest key, padding, standard output *)

(** The response carries the list [issues] under data.list. *)
Definition has_issues (data : response) (issues : list record) : Prop :=
  exists d : payload,
    data !! "data"%string = Some d /\ d !! "list"%string = Some issues.

(** [m] is the largest key of [l], reached by some item. *)
Definition is_max_key {A : Type} (key : A -> res Z) (l : list A) (m : Z)
  : Prop :=
  (exists item, In item l /\ key item = Ok m)
  /\ (forall item k, In item l -> key item = Ok k -> k <= m).

Fixpoint zeros (k : nat) : string :=
  match k with
  | O => EmptyString
  | S k => String "0" (zeros k)
  end.

(** Left padding with ['0'] up to [width] characters. *)
Definition pad_left_zeros (width : nat) (s : string) : string :=
  zeros (width - String.length s) +:+ s.

(** The decimal digits of a non-negative number, none for 0. *)
Definition render (z : Z) : string := pretty_N_go (Z.to_N z) EmptyString.

(** What a run writes to standard output. *)
Definition stdout (o : outcome) : option (list (string * pyval)) :=
  match o with
  | Printed m => Some m
  | Uncaught _ => None
  end.

(** ** Characters of a string *)

Fixpoint string_all (P : ascii -> bool) (s : string) : bool :=
  match s with
  | EmptyString => true
  | String c r => P c && string_all P r
  end.

Definition digit_or_underscore (c : ascii) : bool :=
  is_digit c || is_underscore c.

(** A code point below 128.  On a string of such characters one character
    is one code point, and [int_of_string], [py_len] and [str_index] are
    Python's [int], [len] and indexing. *)
Definition is_ascii (c : ascii) : bool := (N_of_ascii c <? 128)%N.

Fixpoint last_char (s : string) : option ascii :=
  match s with
  | EmptyString => None
  | String c EmptyString => Some c
  | String _ r => last_char r
  end.

(** * Further definitions

    The rest of the scripts: [fetch_data] with its two except clauses, and
    the test of the response on any JSON value, not only on the typed
    shape used above.  The network is an input: what the body of the try
    block did is given as an [attempt]. *)

(** ** More sample inputs *)

Definition history_9 : list record := [mk_record (VInt 9) (VStr "41")].

Definition history_4910 : list record :=
  [mk_record (VStr "4") (VStr "104"); mk_record (VStr "9") (VStr "103");
   mk_record (VStr "1") (VStr "102"); mk_record (VStr "0") (VStr "101")].

Definition history_null : list record := [mk_record VNone (VStr "100")].

Definition history_4917_extra : list record :=
  [<["colour"%string := VStr "red"]> (mk_record (VInt 4) (VStr "104"));
   mk_record (VStr "9") (VStr "103");
   mk_record (VStr "1") (VStr "102"); mk_record (VStr "7") (VStr "101")].

Definition history_five : list record :=
  [mk_record (VStr "7") (VStr "205"); mk_record (VInt 0) (VStr "204");
   <["issueNumber"%string := VStr "203"]> ∅;
   mk_record (VStr "3") (VStr "202"); mk_record (VStr "8") (VStr "201")].

(** ** Relations between records *)

(** Two records with the same issueNumber entry and the same text for
    their number. *)
Definition same_fields (a b : record) : Prop :=
  a !! "issueNumber"%string = b !! "issueNumber"%string
  /\ py_str (dict_get a "number" (VInt 0)) = py_str (dict_get b "number" (VInt 0)).

(** The number of the record is written with one digit (a missing number
    counts, as the digit 0). *)
Definition single_digit_number (r : record) : Prop :=
  exists c : ascii,
    is_digit c = true
    /\ py_str (dict_get r "number" (VInt 0)) = String c EmptyString.

(** ** The fetch and the test on the response, on arbitrary JSON *)

Local Set Warnings "-register-all".

(** What [response.json()] can return (floats left out); an object is a
    dictionary. *)
Inductive json : Type :=
| JNull
| JBool (b : bool)
| JInt (z : Z)
| JStr (s : string)
| JList (l : list json)
| JObj (m : gmap string json).

(** Truth value in a condition. *)
Definition truthy (j : json) : bool :=
  match j with
  | JNull => false
  | JBool b => b
  | JInt z => negb (z =? 0)
  | JStr s => match s with EmptyString => false | String _ _ => true end
  | JList l => match l with [] => false | _ :: _ => true end
  | JObj m => negb (bool_decide (size m = 0%nat))
  end.

(** [needle in hay] for two strings: [needle] occurs as a substring. *)
Fixpoint str_contains (needle hay : string) : bool :=
  String.prefix needle hay
  || match hay with
     | EmptyString => false
     | String _ r => str_contains needle r
     end.

(** [x == key] for a string [key]. *)
Definition json_eq_str (key : string) (x : json) : bool :=
  match x with
  | JStr s => String.eqb s key
  | _ => false
  end.

(** [key in c], for a string [key]. *)
Definition py_in (key : string) (c : json) : res bool :=
  match c with
  | JObj m => Ok (match m !! key with Some _ => true | None => false end)
  | JList l => Ok (existsb (json_eq_str key) l)
  | JStr s => Ok (str_contains key s)
  | JNull | JBool _ | JInt _ => Raise TypeError
  end.

(** [c[key]], for a string [key]. *)
Definition py_subscript (c : json) (key : string) : res json :=
  match c with
  | JObj m =>
      match m !! key with
      | Some v => Ok v
      | None => Raise KeyError
      end
  | _ => Raise TypeError
  end.

(** [if data and 'data' in data and 'list' in data['data']:
        issues = data['data']['list']]
    The list handed to the branch, [None] for the else branch. *)
Definition envelope (data : json) : res (option json) :=
  if truthy data then
    has_data <~ py_in "data" data;
    if has_data : bool then
      d <~ py_subscript data "data";
      has_list <~ py_in "list" d;
      if has_list : bool then
        d' <~ py_subscript data "data";
        issues <~ py_subscript d' "list";
        Ok (Some issues)
      else Ok None
    else Ok None
  else Ok None.

(** [key in c] is false: [c] is a string, a list or an object that does
    not hold [key]. *)
Definition lacks (key : string) (c : json) : Prop :=
  (exists s, c = JStr s /\ str_contains key s = false)
  \/ (exists l, c = JList l /\ existsb (json_eq_str key) l = false)
  \/ (exists m : gmap string json, c = JObj m /\ m !! key = None).

(** The responses on which the test of line 19 is false: null, false, 0,
    an empty string, list or object; a string, list or object without
    'data'; an object whose entry data is a string, list or object
    without 'list'. *)
Definition takes_else (data : json) : Prop :=
  truthy data = false
  \/ lacks "data" data
  \/ exists (m : gmap string json) (d : json),
      data = JObj m /\ m !! "data"%string = Some d /\ lacks "list" d.

(** What the body of the try block of [fetch_data] does: it returns the
    parsed JSON, or one of its three calls raises.  Of the exception only
    its text and the outcome of the two class tests matter. *)
Inductive attempt : Type :=
| Returned (data : json)
| Raised (request_exception value_error : bool) (message : string).

(** What [fetch_data] hands back, unless the exception passes through. *)
Inductive fetched : Type :=
| Got (data : json)
| Escapes (message : string).

(** How a script goes on after the fetch. *)
Inductive start : Type :=
| EntersBody (issues : json)
| PrintsNoData
| Crashes (e : exn)
| Propagates (message : string).

Definition dispatch (f : fetched) : start :=
  match f with
  | Got data =>
      match envelope data with
      | Ok (Some issues) => EntersBody issues
      | Ok None => PrintsNoData
      | Raise e => Crashes e
      end
  | Escapes message => Propagates message
  end.

Module Prediction_1755397003498_start.

(** Lines 4 to 12. *)
Definition fetch_data (a : attempt) : fetched :=
  match a with
  | Returned data => Got data
  | Raised true _ e =>
      Got (JObj {["error"%string := JStr ("Error fetching data: " +:+ e)]})
  | Raised false true e =>
      Got (JObj {["error"%string := JStr ("Error parsing JSON: " +:+ e)]})
  | Raised false false e => Escapes e
  end.

(** Lines 17 to 20 and 59 to 60. *)
Definition start_of (a : attempt) : start := dispatch (fetch_data a).

End Prediction_1755397003498_start.

Module Prediction_1755397014428_start.

(** Lines 20 to 28; the same text is in [WinLose_1755398394420.py] and
    [WinLose_1755398401488.py]. *)
Definition fetch_data (a : attempt) : fetched :=
  match a with
  | Returned data => Got data
  | Raised true _ e =>
      Got (JObj {["error"%string := JStr ("Error fetching data: " +:+ e)]})
  | Raised false true e =>
      Got (JObj {["error"%string := JStr ("Error parsing JSON: " +:+ e)]})
  | Raised false false e => Escapes e
  end.

(** Lines 31 to 34 and 70 to 71 (45 to 46 in the two WinLose files). *)
Definition start_of (a : attempt) : start := dispatch (fetch_data a).

End Prediction_1755397014428_start.

Module WinLose_1755398410429_start.

(** Lines 4 to 14: the error is printed here, and [None] is returned. *)
Definition fetch_data (a : attempt)
  : list (list (string * pyval)) * fetched :=
  match a with
  | Returned data => ([], Got data)
  | Raised true _ e =>
      ([[("error"%string, VStr ("Error fetching data: " +:+ e))]], Got JNull)
  | Raised false true e =>
      ([[("error"%string, VStr ("Error parsing JSON: " +:+ e))]], Got JNull)
  | Raised false false e => ([], Escapes e)
  end.

(** Lines 19 to 22 and 32 to 33: what was printed so far, and how the
    script goes on. *)
Definition start_of (a : attempt) : list (list (string * pyval)) * start :=
  let '(printed, f) := fetch_data a in (printed, dispatch f).

End WinLose_1755398410429_start.

(** The typed response of the first part, as JSON. *)
Definition json_of_pyval (v : pyval) : json :=
  match v with
  | VStr s => JStr s
  | VInt z => JInt z
  | VBool b => JBool b
  | VNone => JNull
  end.

Definition json_of_record (r : record) : json := JObj (json_of_pyval <$> r).

Definition json_of_payload (d : payload) : json :=
  JObj ((fun issues => JList (json_of_record <$> issues)) <$> d).

Definition json_of_response (data : response) : json :=
  JObj (json_of_payload <$> data).

(** * Properties *)

(** ** Sample runs *)

Example int_of_string_ex1 : int_of_string " -1_2 " = Ok (-12).
Proof. reflexivity. Qed.
Example int_of_string_ex2 : int_of_string "1__2" = Raise ValueError.
Proof. reflexivity. Qed.
Example int_of_string_ex3 : int_of_string "_" = Raise ValueError.
Proof. reflexivity. Qed.
Example int_of_string_ex4 : int_of_string "007" = Ok 7.
Proof. reflexivity. Qed.
Example str_index_ex : str_index "4917" (-1) = Ok "7"%string.
Proof. reflexivity. Qed.
Example digit_sum_ex : digit_sum 28 = Ok 10.
Proof. reflexivity. Qed.

Example reduce_28 : reduce 28 = Ok 1.
Proof. vm_compute. reflexivity. Qed.
Example reduce_162 : reduce 162 = Ok 9.
Proof. vm_compute. reflexivity. Qed.

Example prediction_4917 :
  Prediction_1755397003498.main (mk_response history_4917) =
  Printed [("next_issue_number"%string, VStr "105");
           ("all_numbers"%string, VInt 4917);
           ("computed_result"%string, VStr "1 Small")].
Proof. vm_compute. reflexivity. Qed.

(** ** Each Mode A script is the composition of its blocks *)

Lemma result_1_blocks (issues : list record) :
  Prediction_1755397003498.result issues =
  (next <~ next_issue_number issues;
   d <~ result_digit (all_numbers_str issues);
   n <~ int_of_string (all_numbers_str issues);
   Ok (mapping next n d)).
Proof.
  unfold Prediction_1755397003498.result, next_issue_number, result_digit,
    int_at, issue_key.
  fold (all_numbers_str issues).
  repeat (try reflexivity; bind_step).
Qed.

Lemma result_2_blocks (issues : list record) :
  Prediction_1755397014428.result issues =
  (d <~ result_digit (all_numbers_str issues);
   next <~ next_issue_number issues;
   n <~ int_of_string (all_numbers_str issues);
   Ok (mapping next n d)).
Proof.
  unfold Prediction_1755397014428.result, next_issue_number, result_digit,
    int_at, issue_key.
  fold (all_numbers_str issues).
  repeat (try reflexivity; bind_step).
Qed.

(** ** The reduction loop *)

Lemma reduce_loop_eq (total : Z) :
  reduce total =
  if 9 <? total then (t <~ digit_sum total; reduce t) else Ok total.
Proof.
  funelim (reduce total);
    repeat match goal with
      | E : (9 <? _) = _ |- _ => rewrite E
      | E : digit_sum _ = _ |- _ => rewrite E
      end; reflexivity.
Qed.

Lemma digital_root_range (n : Z) : 0 <= n -> 0 <= digital_root n <= 9.
Proof.
  intros Hn. unfold digital_root. destruct (n =? 0); [lia |].
  pose proof (Z.mod_pos_bound (n - 1) 9 ltac:(lia)). lia.
Qed.

Lemma digital_root_small (n : Z) : 0 <= n <= 9 -> digital_root n = n.
Proof.
  intros Hn. unfold digital_root. destruct (Z.eqb_spec n 0) as [-> | Hne];
    [reflexivity |].
  rewrite Z.mod_small by lia. lia.
Qed.

Lemma digital_root_congr (t n : Z) :
  0 < t -> 0 < n -> t mod 9 = n mod 9 -> digital_root t = digital_root n.
Proof.
  intros Ht Hn H9. unfold digital_root.
  destruct (Z.eqb_spec t 0) as [? | _]; [lia |].
  destruct (Z.eqb_spec n 0) as [? | _]; [lia |].
  rewrite (Zminus_mod t), (Zminus_mod n), H9. reflexivity.
Qed.

(** The loop returns, and returns the digital root. *)
Lemma reduce_digital_root (total : Z) :
  0 <= total -> reduce total = Ok (digital_root total).
Proof.
  intros Hnn. revert total Hnn.
  apply (Zlt_0_ind (fun total => reduce total = Ok (digital_root total))).
  intros total IH Hnn. rewrite reduce_loop_eq.
  destruct (Z.ltb_spec 9 total) as [Hgt | Hle].
  - destruct (digit_sum_spec total Hnn) as (t & Ht & Hb & Hp & Hs & H9).
    rewrite Ht. cbn [bind]. rewrite IH by lia.
    f_equal. apply digital_root_congr; [lia | lia | exact H9].
  - rewrite digital_root_small by lia. reflexivity.
Qed.

(** C4: the digit-sum loop [while total > 9: total = sum of the decimal
    digits of total] returns on every non-negative input, because each
    round strictly decreases a multi-digit total, and what it returns is a
    single digit between 0 and 9. *)
Theorem C4_reduce_terminates_single_digit (total : Z) :
  0 <= total ->
  (9 < total -> exists t : Z, digit_sum total = Ok t /\ 0 <= t < total)
  /\ exists d : Z, reduce total = Ok d /\ 0 <= d <= 9.
Proof.
  intros Hnn. split.
  - intros Hgt. destruct (digit_sum_spec total Hnn) as (t & Ht & Hb & _ & Hs & _).
    exists t. split; [exact Ht | lia].
  - exists (digital_root total). split.
    + apply reduce_digital_root, Hnn.
    + apply digital_root_range, Hnn.
Qed.

Lemma C4_reduce_terminates_single_digit_witness :
  0 <= 28 /\
  ((9 < 28 -> exists t : Z, digit_sum 28 = Ok t /\ 0 <= t < 28)
   /\ exists d : Z, reduce 28 = Ok d /\ 0 <= d <= 9).
Proof.
  split; [lia |]. apply (C4_reduce_terminates_single_digit 28). lia.
Defined.

(** ** Reading digit strings *)

Lemma digit_value_range (c : ascii) (d : Z) :
  digit_value c = Some d -> 0 <= d <= 9.
Proof.
  unfold digit_value.
  destruct ((48 <=? N_of_ascii c)%N && (N_of_ascii c <=? 57)%N) eqn:E;
    [| discriminate].
  apply andb_true_iff in E as [E1 E2].
  apply N.leb_le in E1. apply N.leb_le in E2.
  intros [= <-]. lia.
Qed.

Lemma is_digit_value (c : ascii) :
  is_digit c = true -> digit_value c = Some (default 0 (digit_value c)).
Proof. unfold is_digit. destruct (digit_value c); [reflexivity | discriminate]. Qed.

Lemma get_in_range (s : string) (i : nat) :
  (i < String.length s)%nat -> exists c, String.get i s = Some c.
Proof.
  revert i. induction s as [| c s IH]; intros i Hi; cbn in Hi; [lia |].
  destruct i as [| i]; cbn; [eauto |]. apply IH. lia.
Qed.

Lemma get_out_of_range (s : string) (i : nat) :
  (String.length s <= i)%nat -> String.get i s = None.
Proof.
  revert i. induction s as [| c s IH]; intros i Hi; cbn in Hi.
  - destruct i; reflexivity.
  - destruct i as [| i]; [lia |]. cbn. apply IH. lia.
Qed.

Lemma is_digit_string_get (s : string) (i : nat) (c : ascii) :
  is_digit_string s = true -> String.get i s = Some c -> is_digit c = true.
Proof.
  revert i. induction s as [| x s IH]; intros i Hs Hg.
  - destruct i; discriminate.
  - cbn in Hs. apply andb_true_iff in Hs as [Hx Hs].
    destruct i as [| i]; cbn in Hg.
    + injection Hg as <-. exact Hx.
    + eapply IH; eassumption.
Qed.

Lemma digit_at_range (s : string) (i : nat) :
  is_digit_string s = true -> 0 <= digit_at s i <= 9.
Proof.
  intros Hs. unfold digit_at. destruct (String.get i s) as [c |] eqn:Hg; [| lia].
  pose proof (is_digit_value c (is_digit_string_get s i c Hs Hg)) as Hd.
  apply digit_value_range in Hd. exact Hd.
Qed.

(** [int(s[i])] on a digit string, for an index counted from the start,
    for one counted from the end, and for one out of range. *)
Lemma int_at_digits (s : string) (i : Z) :
  is_digit_string s = true -> 0 <= i < py_len s ->
  int_at s i = Ok (digit_at s (Z.to_nat i)).
Proof.
  intros Hs Hi. unfold int_at, str_index, digit_at, py_len in *.
  destruct (Z.ltb_spec i 0) as [? | _]; [lia |].
  destruct (Z.ltb_spec i 0) as [? | _]; [lia |].
  destruct (Z.leb_spec (Z.of_nat (String.length s)) i) as [? | _]; [lia |].
  cbn [orb].
  destruct (get_in_range s (Z.to_nat i) ltac:(lia)) as [c Hc]. rewrite Hc.
  cbn [bind]. apply int_of_string_digit_char, is_digit_value.
  eapply is_digit_string_get; eassumption.
Qed.

Lemma int_at_digits_neg (s : string) (i : Z) :
  is_digit_string s = true -> - py_len s <= i < 0 ->
  int_at s i = Ok (digit_at s (Z.to_nat (i + py_len s))).
Proof.
  intros Hs Hi. rewrite <- (int_at_digits s (i + py_len s) Hs) by lia.
  unfold int_at, str_index.
  assert ((i <? 0) = true) as Ha by (apply Z.ltb_lt; lia).
  assert ((i + py_len s <? 0) = false) as Hb by (apply Z.ltb_ge; lia).
  rewrite Ha, Hb. cbv beta zeta iota. rewrite Hb. reflexivity.
Qed.

Lemma int_at_out_of_range (s : string) (i : Z) :
  py_len s <= i \/ i < - py_len s -> int_at s i = Raise IndexError.
Proof.
  intros Hi. unfold int_at, str_index.
  assert (0 <= py_len s) as Hl by (unfold py_len; lia).
  destruct (Z.ltb_spec i 0) as [Hneg | Hpos].
  - destruct (Z.ltb_spec (i + py_len s) 0) as [_ | ?]; [reflexivity | lia].
  - destruct (Z.ltb_spec i 0) as [? | _]; [lia |].
    destruct (Z.leb_spec (py_len s) i) as [_ | ?]; [reflexivity | lia].
Qed.

(** [int(s)] on a digit string. *)
Lemma scan_digits_digits (s : string) (prev_us : bool) (acc : Z) :
  is_digit_string s = true -> s <> EmptyString \/ prev_us = false ->
  scan_digits s prev_us acc = Some (digits_value s acc, EmptyString).
Proof.
  revert prev_us acc. induction s as [| c s IH]; intros prev_us acc Hs Hne.
  - destruct Hne as [Hne | ->]; [congruence | reflexivity].
  - cbn in Hs. apply andb_true_iff in Hs as [Hc Hs].
    cbn [scan_digits digits_value]. rewrite (is_digit_value c Hc).
    apply IH; [exact Hs | right; reflexivity].
Qed.

Lemma int_of_string_unsigned (c : ascii) (r : string) :
  is_digit c = true ->
  int_of_string (String c r) =
  match parse_magnitude (String c r) with
  | Some v => Ok v
  | None => Raise ValueError
  end.
Proof.
  destruct c as [[] [] [] [] [] [] [] []]; intros Hc;
    try (vm_compute in Hc; discriminate Hc); reflexivity.
Qed.

Lemma int_of_string_digits (s : string) :
  is_digit_string s = true -> s <> EmptyString ->
  int_of_string s = Ok (digits_value s 0).
Proof.
  intros Hs Hne. destruct s as [| c r]; [congruence |].
  pose proof Hs as Hs'. cbn in Hs'. apply andb_true_iff in Hs' as [Hc _].
  rewrite (int_of_string_unsigned c r Hc). unfold parse_magnitude.
  rewrite (is_digit_value c Hc).
  rewrite (scan_digits_digits (String c r) false 0 Hs (or_intror eq_refl)).
  reflexivity.
Qed.

(** ** A first digit within the length *)

Lemma py_len_pos (s : string) : s <> EmptyString -> 0 < py_len s.
Proof. destruct s; [congruence |]. intros _. unfold py_len. cbn. lia. Qed.

Lemma result_digit_in_range (digits : string) :
  digits <> EmptyString -> is_digit_string digits = true ->
  1 <= digit_at digits 0 <= py_len digits ->
  let position := py_len digits - digit_at digits 0 in
  result_digit digits =
  Ok (digital_root
        ((digit_at digits (Z.to_nat position)
          + (if 0 <=? position - 1
             then digit_at digits (Z.to_nat (position - 1)) else 0))
         * digit_at digits (Z.to_nat (py_len digits - 1)))).
Proof.
  intros Hne Hd Hfirst position. pose proof (py_len_pos digits Hne) as Hlen.
  unfold result_digit.
  rewrite (int_at_digits digits 0 Hd) by lia. cbn [bind].
  change (Z.to_nat 0) with 0%nat. fold position.
  rewrite (int_at_digits digits position Hd) by (unfold position; lia).
  cbn [bind].
  rewrite (int_at_digits_neg digits (-1) Hd) by lia.
  replace (-1 + py_len digits) with (py_len digits - 1) by lia.
  pose proof (digit_at_range digits (Z.to_nat position) Hd) as H1.
  pose proof (digit_at_range digits (Z.to_nat (position - 1)) Hd) as H2.
  pose proof (digit_at_range digits (Z.to_nat (py_len digits - 1)) Hd) as H3.
  destruct (Z.leb_spec 0 (position - 1)) as [Hp | Hp].
  - rewrite (int_at_digits digits (position - 1) Hd) by (unfold position; lia).
    cbn [bind]. apply reduce_digital_root. nia.
  - cbn [bind]. apply reduce_digital_root. nia.
Qed.

(** C1: on a non-empty digit string whose first digit lies between 1 and
    the length (and with issue numbers that can be read, so that the
    scripts reach their print), both Mode A scripts compute position =
    length - first,
    take the digit there, the digit before it (0 when there is none), the
    last digit, multiply the sum of the first two by the third, reduce the
    total to one digit d by digit-summing, and print the result text
    "<d> Small" when d <= 4 and "<d> Big" otherwise; on "4917" the text is
    "1 Small". *)
Theorem C1_modeA_core_transform :
  (forall (issues : list record) (next : string),
      let digits := all_numbers_str issues in
      digits <> EmptyString ->
      is_digit_string digits = true ->
      1 <= digit_at digits 0 <= Z.of_nat (String.length digits) ->
      next_issue_number issues = Ok next ->
      let printed :=
        Ok [("next_issue_number"%string, VStr next);
            ("all_numbers"%string, VInt (digits_value digits 0));
            ("computed_result"%string, VStr (spec_computed_result digits))] in
      Prediction_1755397003498.result issues = printed
      /\ Prediction_1755397014428.result issues = printed)
  /\ all_numbers_str history_4917 = "4917"%string
  /\ spec_computed_result "4917" = "1 Small"%string
  /\ (forall m, In m [Prediction_1755397003498.main (mk_response history_4917);
                      Prediction_1755397014428.main (mk_response history_4917)] ->
        m = Printed [("next_issue_number"%string, VStr "105");
                     ("all_numbers"%string, VInt 4917);
                     ("computed_result"%string, VStr "1 Small")]).
Proof.
  split; [| split; [| split]].
  - intros issues next digits Hne Hd Hfirst Hnext printed.
    pose proof (result_digit_in_range digits Hne Hd Hfirst) as Hr.
    cbv zeta in Hr.
    rewrite result_1_blocks, result_2_blocks. fold digits.
    rewrite Hnext, Hr, (int_of_string_digits digits Hd Hne). cbn [bind].
    split; reflexivity.
  - vm_compute. reflexivity.
  - vm_compute. reflexivity.
  - intros m [<- | [<- | []]]; vm_compute; reflexivity.
Qed.

Lemma C1_modeA_core_transform_witness :
  all_numbers_str history_4917 <> EmptyString
  /\ is_digit_string (all_numbers_str history_4917) = true
  /\ 1 <= digit_at (all_numbers_str history_4917) 0
     <= Z.of_nat (String.length (all_numbers_str history_4917))
  /\ next_issue_number history_4917 = Ok "105"%string
  /\ Prediction_1755397003498.result history_4917 =
     Ok [("next_issue_number"%string, VStr "105");
         ("all_numbers"%string, VInt 4917);
         ("computed_result"%string, VStr "1 Small")]
  /\ Prediction_1755397014428.result history_4917 =
     Ok [("next_issue_number"%string, VStr "105");
         ("all_numbers"%string, VInt 4917);
         ("computed_result"%string, VStr "1 Small")].
Proof.
  assert (all_numbers_str history_4917 <> EmptyString) as H1
    by (vm_compute; discriminate).
  assert (is_digit_string (all_numbers_str history_4917) = true) as H2
    by (vm_compute; reflexivity).
  assert (1 <= digit_at (all_numbers_str history_4917) 0
          <= Z.of_nat (String.length (all_numbers_str history_4917))) as H3
    by (vm_compute; split; discriminate).
  assert (next_issue_number history_4917 = Ok "105"%string) as H4
    by (vm_compute; reflexivity).
  split; [exact H1 |]. split; [exact H2 |]. split; [exact H3 |].
  split; [exact H4 |].
  exact (proj1 C1_modeA_core_transform history_4917 "105"%string H1 H2 H3 H4).
Defined.

(** ** Responses that carry a list of records *)

Lemma with_issues_has (data : response) (issues : list record)
  (k : list record -> outcome) (otherwise : outcome) :
  has_issues data issues -> with_issues data k otherwise = k issues.
Proof.
  intros (d & Hd & Hl). unfold with_issues. rewrite Hd, Hl. reflexivity.
Qed.

Lemma has_issues_mk_response (issues : list record) :
  has_issues (mk_response issues) issues.
Proof.
  exists (<["list"%string := issues]> ∅). unfold mk_response.
  split; apply lookup_insert_eq.
Qed.

(** ** A first digit 0 *)




(** ** An empty list of records *)

(** C3: on a response whose list is empty, the three Mode B scripts print
    the error mapping "No issues available."; the Mode A scripts print
    nothing and end with an uncaught exception, a ValueError from [max] in
    the first and an IndexError from the read of the first digit in the
    second. *)
Theorem C3_empty_history (data : response) :
  has_issues data [] ->
  WinLose_1755398394420.main data = Printed no_issues
  /\ WinLose_1755398401488.main data = Printed no_issues
  /\ WinLose_1755398410429.main data = Printed no_issues
  /\ Prediction_1755397003498.main data = Uncaught ValueError
  /\ Prediction_1755397014428.main data = Uncaught IndexError.
Proof.
  intros Hdata.
  unfold WinLose_1755398394420.main, WinLose_1755398401488.main,
    WinLose_1755398410429.main, Prediction_1755397003498.main,
    Prediction_1755397014428.main.
  rewrite !(with_issues_has data []) by exact Hdata.
  repeat split; reflexivity.
Qed.

Lemma C3_empty_history_witness :
  has_issues (mk_response []) []
  /\ WinLose_1755398394420.main (mk_response []) = Printed no_issues
  /\ WinLose_1755398401488.main (mk_response []) = Printed no_issues
  /\ WinLose_1755398410429.main (mk_response []) = Printed no_issues
  /\ Prediction_1755397003498.main (mk_response []) = Uncaught ValueError
  /\ Prediction_1755397014428.main (mk_response []) = Uncaught IndexError.
Proof.
  split; [apply has_issues_mk_response |].
  apply (C3_empty_history (mk_response [])). apply has_issues_mk_response.
Defined.

(** ** The next issue number *)

Section MaxWithKey.
Context {A : Type} (key : A -> res Z).

Lemma is_max_key_unique (l : list A) (m m' : Z) :
  is_max_key key l m -> is_max_key key l m' -> m = m'.
Proof.
  intros [(x & Hx & Hkx) Hub] [(y & Hy & Hky) Hub'].
  pose proof (Hub y m' Hy Hky). pose proof (Hub' x m Hx Hkx). lia.
Qed.

Lemma is_max_key_perm (l l' : list A) (m : Z) :
  Permutation l l' -> is_max_key key l m -> is_max_key key l' m.
Proof.
  intros Hp [(x & Hx & Hkx) Hub]. split.
  - exists x. split; [eapply Permutation_in; eassumption | exact Hkx].
  - intros item k Hin. apply Hub.
    eapply Permutation_in; [symmetry; exact Hp | exact Hin].
Qed.

Lemma max_loop_spec (l : list A) (maxitem : A) (maxval : Z) :
  key maxitem = Ok maxval ->
  (forall item, In item l -> exists k, key item = Ok k) ->
  exists best m, max_loop key l maxitem maxval = Ok best
                 /\ key best = Ok m
                 /\ is_max_key key (maxitem :: l) m.
Proof.
  revert maxitem maxval.
  induction l as [| x l IH]; intros maxitem maxval Hk Hall.
  - exists maxitem, maxval. cbn [max_loop]. repeat split; [exact Hk | |].
    + exists maxitem. split; [left; reflexivity | exact Hk].
    + intros item k [Heq | []] Hi. subst item.
      rewrite Hk in Hi. injection Hi as <-. lia.
  - destruct (Hall x (or_introl eq_refl)) as [kx Hkx].
    cbn [max_loop]. rewrite Hkx. cbn [bind].
    assert (forall item, In item l -> exists k, key item = Ok k) as Hall'
      by (intros item Hin; apply Hall; right; exact Hin).
    destruct (Z.ltb_spec maxval kx) as [Hlt | Hge].
    + destruct (IH x kx Hkx Hall')
        as (best & m & Hb & Hm & (w & Hw & Hkw) & Hub).
      exists best, m. repeat split; [exact Hb | exact Hm | |].
      * exists w. split; [right; exact Hw | exact Hkw].
      * intros item k [Heq | Hin] Hi.
        -- subst item. rewrite Hk in Hi. injection Hi as <-.
           pose proof (Hub x kx (or_introl eq_refl) Hkx). lia.
        -- apply (Hub item k Hin Hi).
    + destruct (IH maxitem maxval Hk Hall')
        as (best & m & Hb & Hm & (w & Hw & Hkw) & Hub).
      exists best, m. repeat split; [exact Hb | exact Hm | |].
      * exists w. split; [| exact Hkw].
        destruct Hw as [Heq | Hw]; [left; exact Heq | right; right; exact Hw].
      * intros item k [Heq | [Heq | Hin]] Hi.
        -- apply (Hub item k (or_introl Heq) Hi).
        -- subst item. rewrite Hkx in Hi. injection Hi as <-.
           pose proof (Hub maxitem maxval (or_introl eq_refl) Hk). lia.
        -- apply (Hub item k (or_intror Hin) Hi).
Qed.

(** On a non-empty list whose keys can all be computed, [max] returns an
    item whose key is the largest. *)
Lemma py_max_spec (l : list A) :
  l <> [] ->
  (forall item, In item l -> exists k, key item = Ok k) ->
  exists best m, py_max key l = Ok best /\ key best = Ok m /\ is_max_key key l m.
Proof.
  intros Hne Hall. destruct l as [| x l]; [congruence |].
  destruct (Hall x (or_introl eq_refl)) as [kx Hkx].
  cbn [py_max]. rewrite Hkx. cbn [bind].
  apply (max_loop_spec l x kx Hkx).
  intros item Hin. apply Hall. right. exact Hin.
Qed.

End MaxWithKey.

Lemma next_issue_number_spec (issues : list record) :
  issues <> [] ->
  (forall r, In r issues -> exists k, issue_key r = Ok k) ->
  exists m, is_max_key issue_key issues m
            /\ next_issue_number issues = Ok (py_str (VInt (m + 1))).
Proof.
  intros Hne Hall.
  destruct (py_max_spec issue_key issues Hne Hall) as (best & m & Hb & Hm & Hmax).
  exists m. split; [exact Hmax |].
  unfold next_issue_number. rewrite Hb. cbn [bind].
  unfold issue_key in Hm.
  destruct (dict_getitem best "issueNumber") as [v | e]; cbn [bind] in *;
    [| discriminate].
  rewrite Hm. reflexivity.
Qed.

Lemma result_next_issue_number (issues : list record)
  (r : list (string * pyval)) :
  Prediction_1755397003498.result issues = Ok r
  \/ Prediction_1755397014428.result issues = Ok r ->
  exists next n d, next_issue_number issues = Ok next
                   /\ result_digit (all_numbers_str issues) = Ok d
                   /\ int_of_string (all_numbers_str issues) = Ok n
                   /\ r = mapping next n d.
Proof.
  rewrite result_1_blocks, result_2_blocks.
  destruct (next_issue_number issues) as [next | ?];
    destruct (result_digit (all_numbers_str issues)) as [d | ?];
    destruct (int_of_string (all_numbers_str issues)) as [n | ?];
    cbn [bind]; intros [H | H]; try discriminate H;
    injection H as <-; exists next, n, d; auto.
Qed.

(** C5: when the list is not empty and every record has an issueNumber
    that [int] accepts, the next issue number computed by Mode A is
    [str(m + 1)] for the largest such integer m, whatever the order of the
    records; it is the field printed by both scripts. *)
Theorem C5_next_issue_number (issues : list record) :
  issues <> [] ->
  (forall r, In r issues -> exists k, issue_key r = Ok k) ->
  exists m : Z,
    is_max_key issue_key issues m
    /\ forall issues' : list record,
        Permutation issues issues' ->
        next_issue_number issues' = Ok (py_str (VInt (m + 1)))
        /\ forall r,
            Prediction_1755397003498.result issues' = Ok r
            \/ Prediction_1755397014428.result issues' = Ok r ->
            exists n d, r = [("next_issue_number"%string,
                               VStr (py_str (VInt (m + 1))));
                             ("all_numbers"%string, VInt n);
                             ("computed_result"%string,
                               VStr (pretty d +:+ " " +:+ size_of d))].
Proof.
  intros Hne Hall.
  destruct (next_issue_number_spec issues Hne Hall) as (m & Hmax & _).
  exists m. split; [exact Hmax |]. intros issues' Hperm.
  assert (issues' <> []) as Hne'.
  { intros ->. symmetry in Hperm. apply Permutation_nil in Hperm. congruence. }
  assert (forall r, In r issues' -> exists k, issue_key r = Ok k) as Hall'.
  { intros r Hin. apply Hall.
    eapply Permutation_in; [symmetry; exact Hperm | exact Hin]. }
  destruct (next_issue_number_spec issues' Hne' Hall') as (m' & Hmax' & Hnext).
  assert (m' = m) as ->.
  { eapply is_max_key_unique; [exact Hmax' |].
    eapply is_max_key_perm; eassumption. }
  split; [exact Hnext |]. intros r Hr.
  destruct (result_next_issue_number issues' r Hr) as (next & n & d & Hn & _ & _ & ->).
  rewrite Hnext in Hn. injection Hn as <-. exists n, d. reflexivity.
Qed.

Lemma history_unordered_keys (r : record) :
  In r history_unordered -> exists k, issue_key r = Ok k.
Proof.
  intros [<- | [<- | [<- | []]]]; eexists; vm_compute; reflexivity.
Qed.

Lemma C5_next_issue_number_witness :
  history_unordered <> []
  /\ (forall r, In r history_unordered -> exists k, issue_key r = Ok k)
  /\ exists m : Z,
      is_max_key issue_key history_unordered m
      /\ forall issues' : list record,
          Permutation history_unordered issues' ->
          next_issue_number issues' = Ok (py_str (VInt (m + 1)))
          /\ forall r,
              Prediction_1755397003498.result issues' = Ok r
              \/ Prediction_1755397014428.result issues' = Ok r ->
              exists n d, r = [("next_issue_number"%string,
                                 VStr (py_str (VInt (m + 1))));
                               ("all_numbers"%string, VInt n);
                               ("computed_result"%string,
                                 VStr (pretty d +:+ " " +:+ size_of d))].
Proof.
  split; [discriminate |]. split; [exact history_unordered_keys |].
  apply (C5_next_issue_number history_unordered);
    [discriminate | exact history_unordered_keys].
Defined.

Example next_issue_number_unordered :
  next_issue_number history_unordered = Ok "20250817100054"%string.
Proof. vm_compute. reflexivity. Qed.

(** ** Reading the digits back *)

Lemma pretty_pos_render (z : Z) : 0 < z -> pretty z = render z.
Proof. destruct z as [| p | p]; intros Hz; [lia | reflexivity | lia]. Qed.

Lemma string_app_nil_r (s : string) : s +:+ EmptyString = s.
Proof.
  induction s as [| c s IH]; [reflexivity |].
  rewrite string_app_cons, IH. reflexivity.
Qed.

Lemma string_length_app (a b : string) :
  String.length (a +:+ b) = (String.length a + String.length b)%nat.
Proof.
  induction a as [| c a IH]; [reflexivity |].
  rewrite string_app_cons. cbn [String.length]. rewrite IH. reflexivity.
Qed.

Lemma zeros_length (k : nat) : String.length (zeros k) = k.
Proof. induction k as [| k IH]; [reflexivity |]. cbn. rewrite IH. reflexivity. Qed.

Lemma zeros_snoc (k : nat) : zeros k +:+ "0" = zeros (S k).
Proof.
  induction k as [| k IH]; [reflexivity |].
  cbn [zeros]. rewrite string_app_cons, IH. reflexivity.
Qed.

Lemma pretty_char_of_digit (c : ascii) (d : Z) :
  digit_value c = Some d -> pretty_N_char (Z.to_N d) = c.
Proof.
  destruct c as [[] [] [] [] [] [] [] []]; vm_compute;
    intros Hd; try discriminate Hd; injection Hd as <-; reflexivity.
Qed.

Lemma render_step (acc d : Z) :
  0 <= acc -> 0 <= d <= 9 -> 0 < 10 * acc + d ->
  render (10 * acc + d) =
  render acc +:+ String (pretty_N_char (Z.to_N d)) EmptyString.
Proof.
  intros Hacc Hd Hpos. unfold render.
  rewrite pretty_N_go_step by lia. rewrite pretty_N_go_app.
  change 10%N with (Z.to_N 10).
  rewrite <- Z2N.inj_div, <- Z2N.inj_mod by lia.
  replace ((10 * acc + d) `div` 10) with acc
    by (apply (Z.div_unique _ _ acc d); lia).
  replace ((10 * acc + d) `mod` 10) with d
    by (apply (Z.mod_unique _ _ acc d); lia).
  reflexivity.
Qed.

Lemma digits_value_nonneg (s : string) (acc : Z) :
  is_digit_string s = true -> 0 <= acc -> acc <= digits_value s acc.
Proof.
  revert acc. induction s as [| c s IH]; intros acc Hs Hacc; [cbn; lia |].
  cbn in Hs. apply andb_true_iff in Hs as [Hc Hs]. cbn [digits_value].
  pose proof (digit_value_range c _ (is_digit_value c Hc)) as Hd.
  specialize (IH (10 * acc + default 0 (digit_value c)) Hs ltac:(lia)). lia.
Qed.

(** After a non-zero prefix every further digit is rendered as it is. *)
Lemma render_digits_value (s : string) (acc : Z) :
  is_digit_string s = true -> 0 < acc ->
  render (digits_value s acc) = render acc +:+ s.
Proof.
  revert acc. induction s as [| c s IH]; intros acc Hs Hacc.
  - cbn [digits_value]. rewrite string_app_nil_r. reflexivity.
  - cbn in Hs. apply andb_true_iff in Hs as [Hc Hs]. cbn [digits_value].
    pose proof (is_digit_value c Hc) as Hv.
    pose proof (digit_value_range c _ Hv) as Hd.
    rewrite IH by (assumption || lia).
    rewrite render_step by lia.
    rewrite (pretty_char_of_digit c _ Hv), string_app_assoc.
    reflexivity.
Qed.

(** Leading zeros are what the parse drops, and what the padding restores. *)
Lemma pad_render_digits_value (s : string) :
  is_digit_string s = true ->
  pad_left_zeros (String.length s) (render (digits_value s 0)) = s.
Proof.
  induction s as [| c s IH]; intros Hs; [reflexivity |].
  cbn in Hs. apply andb_true_iff in Hs as [Hc Hs]. specialize (IH Hs).
  pose proof (is_digit_value c Hc) as Hv.
  pose proof (digit_value_range c _ Hv) as Hd.
  cbn [digits_value String.length]. rewrite Z.mul_0_r, Z.add_0_l.
  destruct (Z.eq_dec (default 0 (digit_value c)) 0) as [Hz | Hnz].
  - rewrite Hz. rewrite Hz in Hv.
    apply pretty_char_of_digit in Hv. cbn in Hv. subst c.
    assert (String.length (render (digits_value s 0)) <= String.length s)%nat
      as Hlen.
    { apply (f_equal String.length) in IH. unfold pad_left_zeros in IH.
      rewrite string_length_app, zeros_length in IH. lia. }
    unfold pad_left_zeros in *.
    replace (S (String.length s) - String.length (render (digits_value s 0)))%nat
      with (S (String.length s - String.length (render (digits_value s 0))))
      by lia.
    cbn [zeros]. rewrite string_app_cons, IH. reflexivity.
  - rewrite render_digits_value by (assumption || lia).
    replace (default 0 (digit_value c))
      with (10 * 0 + default 0 (digit_value c)) at 1 by lia.
    rewrite render_step by lia.
    rewrite (pretty_char_of_digit c _ Hv).
    change (render 0) with EmptyString.
    change (EmptyString +:+ String c EmptyString) with (String c EmptyString).
    change (String c EmptyString +:+ s) with (String c s).
    unfold pad_left_zeros. cbn [String.length].
    rewrite Nat.sub_diag. reflexivity.
Qed.

(** C6: for a non-empty string of decimal digits, [int] accepts the
    string, and the decimal text of the integer, padded on the left with
    ['0'] to the length of the string, is the string again; the integer is
    the all_numbers field printed by both Mode A scripts. *)
Theorem C6_all_numbers_round_trip (digits : string) :
  digits <> EmptyString ->
  is_digit_string digits = true ->
  exists n : Z,
    int_of_string digits = Ok n
    /\ pad_left_zeros (String.length digits) (py_str (VInt n)) = digits
    /\ forall issues r,
        all_numbers_str issues = digits ->
        Prediction_1755397003498.result issues = Ok r
        \/ Prediction_1755397014428.result issues = Ok r ->
        In ("all_numbers"%string, VInt n) r.
Proof.
  intros Hne Hd. exists (digits_value digits 0).
  pose proof (int_of_string_digits digits Hd Hne) as Hint.
  split; [exact Hint |]. split.
  - pose proof (pad_render_digits_value digits Hd) as Hpad.
    pose proof (digits_value_nonneg digits 0 Hd ltac:(lia)) as Hnn.
    cbn [py_str].
    destruct (Z.eq_dec (digits_value digits 0) 0) as [Hz | Hnz].
    + rewrite Hz in *. change (render 0) with EmptyString in Hpad.
      unfold pad_left_zeros in Hpad. cbn [String.length] in Hpad.
      rewrite string_app_nil_r, Nat.sub_0_r in Hpad.
      change (pretty 0) with "0"%string. unfold pad_left_zeros.
      cbn [String.length].
      destruct (String.length digits) as [| k] eqn:Hlen.
      { destruct digits; [congruence | discriminate]. }
      replace (S k - 1)%nat with k by lia.
      rewrite zeros_snoc. exact Hpad.
    + rewrite pretty_pos_render by lia. exact Hpad.
  - intros issues r Hs Hr.
    destruct (result_next_issue_number issues r Hr) as (next & n & d & _ & _ & Hn & ->).
    rewrite Hs, Hint in Hn. injection Hn as <-. right. left. reflexivity.
Qed.

Lemma C6_all_numbers_round_trip_witness :
  "0049"%string <> EmptyString
  /\ is_digit_string "0049" = true
  /\ exists n : Z,
      int_of_string "0049" = Ok n
      /\ pad_left_zeros (String.length "0049") (py_str (VInt n)) = "0049"%string
      /\ forall issues r,
          all_numbers_str issues = "0049"%string ->
          Prediction_1755397003498.result issues = Ok r
          \/ Prediction_1755397014428.result issues = Ok r ->
          In ("all_numbers"%string, VInt n) r.
Proof.
  split; [discriminate |]. split; [reflexivity |].
  apply (C6_all_numbers_round_trip "0049"); [discriminate | reflexivity].
Defined.

Example round_trip_0049 :
  int_of_string "0049" = Ok 49
  /\ py_str (VInt 49) = "49"%string
  /\ pad_left_zeros 4 "49" = "0049"%string.
Proof. repeat split; vm_compute; reflexivity. Qed.

(** ** The first number, passed through *)

(** C7: on a response whose list is not empty, the three Mode B scripts
    print the mapping with the single field number, holding [int] of the
    first record's number field, or of 0 when the record has no such field;
    on the one-record history with number "7" they print number 7. *)
Theorem C7_modeB_passthrough :
  (forall (data : response) (first : record) (rest : list record) (n : Z),
      has_issues data (first :: rest) ->
      py_int (default (VInt 0) (first !! "number"%string)) = Ok n ->
      WinLose_1755398394420.main data = Printed [("number"%string, VInt n)]
      /\ WinLose_1755398401488.main data = Printed [("number"%string, VInt n)]
      /\ WinLose_1755398410429.main data = Printed [("number"%string, VInt n)])
  /\ (forall (data : response) (first : record) (rest : list record),
      has_issues data (first :: rest) ->
      first !! "number"%string = None ->
      WinLose_1755398394420.main data = Printed [("number"%string, VInt 0)]
      /\ WinLose_1755398401488.main data = Printed [("number"%string, VInt 0)]
      /\ WinLose_1755398410429.main data = Printed [("number"%string, VInt 0)])
  /\ (WinLose_1755398394420.main (mk_response history_7)
      = Printed [("number"%string, VInt 7)]
      /\ WinLose_1755398401488.main (mk_response history_7)
         = Printed [("number"%string, VInt 7)]
      /\ WinLose_1755398410429.main (mk_response history_7)
         = Printed [("number"%string, VInt 7)]).
Proof.
  assert (forall (data : response) first rest n,
             has_issues data (first :: rest) ->
             py_int (default (VInt 0) (first !! "number"%string)) = Ok n ->
             WinLose_1755398394420.main data = Printed [("number"%string, VInt n)]
             /\ WinLose_1755398401488.main data = Printed [("number"%string, VInt n)]
             /\ WinLose_1755398410429.main data = Printed [("number"%string, VInt n)])
    as Hgen.
  { intros data first rest n Hdata Hn.
    unfold WinLose_1755398394420.main, WinLose_1755398401488.main,
      WinLose_1755398410429.main.
    rewrite !(with_issues_has data (first :: rest)) by exact Hdata.
    unfold WinLose_1755398394420.on_issues, WinLose_1755398401488.on_issues,
      WinLose_1755398410429.on_issues, dict_get.
    rewrite Hn. repeat split; reflexivity. }
  split; [exact Hgen |]. split.
  - intros data first rest Hdata Habsent.
    apply (Hgen data first rest 0 Hdata). rewrite Habsent. reflexivity.
  - repeat split; vm_compute; reflexivity.
Qed.

Lemma C7_modeB_passthrough_witness :
  has_issues (mk_response history_7) history_7
  /\ py_int (default (VInt 0) (mk_record (VStr "7") (VStr "100") !! "number"%string))
     = Ok 7
  /\ WinLose_1755398394420.main (mk_response history_7)
     = Printed [("number"%string, VInt 7)]
  /\ WinLose_1755398401488.main (mk_response history_7)
     = Printed [("number"%string, VInt 7)]
  /\ WinLose_1755398410429.main (mk_response history_7)
     = Printed [("number"%string, VInt 7)].
Proof.
  assert (py_int (default (VInt 0)
                    (mk_record (VStr "7") (VStr "100") !! "number"%string))
          = Ok 7) as H by (vm_compute; reflexivity).
  split; [apply has_issues_mk_response |]. split; [exact H |].
  exact (proj1 C7_modeB_passthrough (mk_response history_7)
           (mk_record (VStr "7") (VStr "100")) [] 7
           (has_issues_mk_response history_7) H).
Defined.

(** ** A first digit larger than the length *)

Lemma result_digit_wrapped (digits : string) :
  digits <> EmptyString -> is_digit_string digits = true ->
  py_len digits < digit_at digits 0 <= 2 * py_len digits ->
  let place := Z.to_nat (2 * py_len digits - digit_at digits 0) in
  int_at digits (py_len digits - digit_at digits 0) = Ok (digit_at digits place)
  /\ result_digit digits =
     Ok (digital_root
           ((digit_at digits place + 0)
            * digit_at digits (Z.to_nat (py_len digits - 1)))).
Proof.
  intros Hne Hd Hfirst place. pose proof (py_len_pos digits Hne) as Hlen.
  assert (int_at digits (py_len digits - digit_at digits 0)
          = Ok (digit_at digits place)) as Hplace.
  { rewrite (int_at_digits_neg digits _ Hd) by lia. unfold place.
    do 3 f_equal. lia. }
  split; [exact Hplace |]. unfold result_digit.
  rewrite (int_at_digits digits 0 Hd) by lia. cbn [bind].
  change (Z.to_nat 0) with 0%nat. rewrite Hplace. cbn [bind].
  destruct (Z.leb_spec 0 (py_len digits - digit_at digits 0 - 1)) as [? | _];
    [lia |].
  cbn [bind]. rewrite (int_at_digits_neg digits (-1) Hd) by lia.
  replace (-1 + py_len digits) with (py_len digits - 1) by lia. cbn [bind].
  pose proof (digit_at_range digits place Hd) as H1.
  pose proof (digit_at_range digits (Z.to_nat (py_len digits - 1)) Hd) as H3.
  apply reduce_digital_root. nia.
Qed.

(** C9: when the first digit exceeds the length of the digit string, but
    not twice the length, the read of the digit at position length - first
    does not fail: the negative index selects the digit at 2 * length -
    first counted from the start, the next digit is 0 whether or not a
    digit stands to the left, and both scripts print the result built from
    these. *)
Theorem C9_first_digit_beyond_length
  (issues : list record) (next : string) :
  let digits := all_numbers_str issues in
  let length := Z.of_nat (String.length digits) in
  let first := digit_at digits 0 in
  digits <> EmptyString ->
  is_digit_string digits = true ->
  length < first -> - length <= length - first ->
  next_issue_number issues = Ok next ->
  let place := Z.to_nat (2 * length - first) in
  let printed :=
    Ok [("next_issue_number"%string, VStr next);
        ("all_numbers"%string, VInt (digits_value digits 0));
        ("computed_result"%string,
          VStr (computed_from (digit_at digits place) 0
                  (digit_at digits (Z.to_nat (length - 1)))))] in
  int_at digits (length - first) = Ok (digit_at digits place)
  /\ Prediction_1755397003498.result issues = printed
  /\ Prediction_1755397014428.result issues = printed.
Proof.
  intros digits length first Hne Hd Hgt Hge Hnext place printed.
  destruct (result_digit_wrapped digits Hne Hd) as [Hplace Hr].
  { unfold py_len. fold length first. lia. }
  split; [exact Hplace |].
  rewrite result_1_blocks, result_2_blocks. fold digits.
  rewrite Hnext, Hr, (int_of_string_digits digits Hd Hne). cbn [bind].
  split; reflexivity.
Qed.

Lemma C9_first_digit_beyond_length_witness :
  all_numbers_str history_31 = "31"%string
  /\ Prediction_1755397003498.result history_31 =
     Ok [("next_issue_number"%string, VStr "13");
         ("all_numbers"%string, VInt 31);
         ("computed_result"%string, VStr "1 Small")]
  /\ Prediction_1755397014428.result history_31 =
     Ok [("next_issue_number"%string, VStr "13");
         ("all_numbers"%string, VInt 31);
         ("computed_result"%string, VStr "1 Small")].
Proof.
  split; [vm_compute; reflexivity |].
  refine (proj2 (C9_first_digit_beyond_length history_31 "13"%string
                   _ _ _ _ _)).
  - vm_compute. discriminate.
  - vm_compute. reflexivity.
  - vm_compute. reflexivity.
  - vm_compute. discriminate.
  - vm_compute. reflexivity.
Defined.

(** ** The scripts of one mode against each other *)

(** C10: on every response the two Mode A scripts write the same thing to
    standard output, the same mapping or nothing at all (the order in which
    they compute the next issue number shows only in which exception ends a
    failing run), and the three Mode B scripts behave identically. *)
Theorem C10_same_mode_scripts_agree (data : response) :
  stdout (Prediction_1755397003498.main data)
  = stdout (Prediction_1755397014428.main data)
  /\ WinLose_1755398394420.main data = WinLose_1755398401488.main data
  /\ WinLose_1755398401488.main data = WinLose_1755398410429.main data.
Proof.
  split; [| split; reflexivity].
  unfold Prediction_1755397003498.main, Prediction_1755397014428.main,
    with_issues.
  destruct (data !! "data"%string) as [d |]; [| reflexivity].
  destruct (d !! "list"%string) as [issues |]; [| reflexivity].
  rewrite result_1_blocks, result_2_blocks.
  destruct (next_issue_number issues);
    destruct (result_digit (all_numbers_str issues));
    destruct (int_of_string (all_numbers_str issues)); reflexivity.
Qed.

(** ** Malformed number fields *)

Lemma string_all_app (P : ascii -> bool) (a b : string) :
  string_all P (a +:+ b) = string_all P a && string_all P b.
Proof.
  induction a as [| c a IH]; [reflexivity |].
  rewrite string_app_cons. cbn [string_all]. rewrite IH.
  apply andb_assoc.
Qed.

Lemma string_all_field (P : ascii -> bool) (issues : list record)
  (item : record) :
  string_all P (all_numbers_str issues) = true -> In item issues ->
  string_all P (py_str (dict_get item "number" (VInt 0))) = true.
Proof.
  unfold all_numbers_str.
  induction issues as [| x issues IH]; intros Hall Hin; [destruct Hin |].
  cbn [map str_join] in Hall. rewrite string_all_app in Hall.
  apply andb_true_iff in Hall as [Hx Hrest].
  destruct Hin as [<- | Hin]; [exact Hx | apply IH; assumption].
Qed.

Lemma int_of_string_char_digit (c : ascii) (v : Z) :
  int_of_string (String c EmptyString) = Ok v -> is_digit c = true.
Proof.
  destruct c as [[] [] [] [] [] [] [] []]; vm_compute;
    intros H; try discriminate H; reflexivity.
Qed.

Lemma is_digit_not_space (c : ascii) : is_digit c = true -> is_space c = false.
Proof.
  destruct c as [[] [] [] [] [] [] [] []]; vm_compute;
    intros H; try discriminate H; reflexivity.
Qed.

Lemma last_char_cons (c : ascii) (r : string) :
  r <> EmptyString -> last_char (String c r) = last_char r.
Proof. destruct r; [congruence | reflexivity]. Qed.

Lemma get_last_char (s : string) :
  String.get (String.length s - 1) s = last_char s.
Proof.
  induction s as [| c s IH]; [reflexivity |].
  destruct s as [| c' s]; [reflexivity |].
  rewrite last_char_cons by discriminate. rewrite <- IH.
  cbn [String.length]. rewrite !Nat.sub_succ, !Nat.sub_0_r. reflexivity.
Qed.

(** [int(s[0])] and [int(s[-1])] succeed on digits only. *)
Lemma int_at_first_digit (s : string) (v : Z) :
  int_at s 0 = Ok v -> exists c r, s = String c r /\ is_digit c = true.
Proof.
  destruct s as [| c r]; [discriminate |]. intros H. exists c, r.
  split; [reflexivity |]. unfold int_at, str_index, py_len in H.
  cbn [String.length] in H.
  destruct (Z.leb_spec (Z.of_nat (S (String.length r))) 0) as [? | _]; [lia |].
  cbn in H. eapply int_of_string_char_digit. exact H.
Qed.

Lemma int_at_last_digit (s : string) (v : Z) :
  int_at s (-1) = Ok v -> exists c, last_char s = Some c /\ is_digit c = true.
Proof.
  intros H. unfold int_at, str_index in H.
  change (-1 <? 0) with true in H. cbv beta zeta iota in H.
  destruct ((-1 + py_len s <? 0) || (py_len s <=? -1 + py_len s));
    [discriminate |].
  replace (Z.to_nat (-1 + py_len s)) with (String.length s - 1)%nat in H
    by (unfold py_len; lia).
  rewrite get_last_char in H.
  destruct (last_char s) as [c |]; [| discriminate].
  exists c. split; [reflexivity |]. cbn [bind] in H.
  eapply int_of_string_char_digit. exact H.
Qed.

Lemma skip_space_empty_last (s : string) :
  s <> EmptyString -> skip_space s = EmptyString ->
  exists c, last_char s = Some c /\ is_space c = true.
Proof.
  induction s as [| c s IH]; intros Hne Hskip; [congruence |].
  cbn [skip_space] in Hskip. destruct (is_space c) eqn:Hc; [| discriminate].
  destruct s as [| c' s]; [exists c; split; [reflexivity | exact Hc] |].
  rewrite last_char_cons by discriminate. apply IH; [discriminate | exact Hskip].
Qed.

(** What the scanning loop has read consists of digits and underscores;
    if only white space follows, either nothing follows or the string ends
    in white space. *)
Lemma scan_digits_chars (s : string) (prev_us : bool) (acc v : Z)
  (rest : string) :
  scan_digits s prev_us acc = Some (v, rest) ->
  skip_space rest = EmptyString ->
  string_all digit_or_underscore s = true
  \/ exists c, last_char s = Some c /\ is_space c = true.
Proof.
  revert prev_us acc. induction s as [| c s IH]; intros prev_us acc Hscan Hskip;
    [left; reflexivity |].
  assert (forall b a, scan_digits s b a = Some (v, rest) ->
                      digit_or_underscore c = true ->
                      string_all digit_or_underscore (String c s) = true
                      \/ exists c', last_char (String c s) = Some c'
                                    /\ is_space c' = true) as Hstep.
  { intros b a Hs Hc. destruct (IH b a Hs Hskip) as [Hall | (c' & Hl & Hsp)].
    - left. cbn [string_all]. rewrite Hc, Hall. reflexivity.
    - right. exists c'. split; [| exact Hsp].
      rewrite last_char_cons; [exact Hl |]. intros ->. discriminate Hl. }
  cbn [scan_digits] in Hscan. unfold digit_or_underscore, is_digit in Hstep.
  destruct (digit_value c) as [d |] eqn:Hd.
  - eapply Hstep; [exact Hscan | reflexivity].
  - destruct (is_underscore c) eqn:Hu.
    + destruct prev_us; [discriminate |].
      eapply Hstep; [exact Hscan | reflexivity].
    + destruct prev_us; [discriminate |]. injection Hscan as <- <-.
      right. apply skip_space_empty_last; [discriminate | exact Hskip].
Qed.

(** A digit string, possibly with underscores, is all that lets the
    transform and the final [int] both succeed. *)
Lemma modeA_digits_or_underscores (s : string) (d n : Z) :
  result_digit s = Ok d -> int_of_string s = Ok n ->
  string_all digit_or_underscore s = true.
Proof.
  intros Hr Hn. unfold result_digit in Hr.
  destruct (int_at s 0) as [first |] eqn:Hfirst; [| discriminate].
  cbn [bind] in Hr.
  destruct (int_at s (py_len s - first)); [| discriminate]. cbn [bind] in Hr.
  destruct (if 0 <=? py_len s - first - 1
            then int_at s (py_len s - first - 1) else Ok 0);
    [| discriminate].
  cbn [bind] in Hr.
  destruct (int_at s (-1)) as [last |] eqn:Hlast; [| discriminate].
  destruct (int_at_first_digit s first Hfirst) as (c & r & -> & Hc).
  destruct (int_at_last_digit _ last Hlast) as (cl & Hcl & Hdl).
  rewrite (int_of_string_unsigned c r Hc) in Hn. unfold parse_magnitude in Hn.
  rewrite (is_digit_value c Hc) in Hn.
  destruct (scan_digits (String c r) false 0) as [[v rest] |] eqn:Hscan;
    [| discriminate].
  destruct (skip_space rest) eqn:Hskip; [| discriminate].
  destruct (scan_digits_chars _ _ _ _ _ Hscan Hskip) as [Hall | (c' & Hl & Hsp)];
    [exact Hall |].
  rewrite Hcl in Hl. injection Hl as <-.
  rewrite (is_digit_not_space cl Hdl) in Hsp. discriminate.
Qed.

(** C8, as stated, fails: on a record whose number is "abc" no script
    prints an error mapping; each one ends with an uncaught ValueError. *)
Lemma C8_malformed_number_counterexample :
  ~ (exists msg, WinLose_1755398394420.main (mk_response history_malformed)
                 = Printed [("error"%string, VStr msg)])
  /\ ~ (exists msg, Prediction_1755397003498.main (mk_response history_malformed)
                    = Printed [("error"%string, VStr msg)])
  /\ WinLose_1755398394420.main (mk_response history_malformed)
     = Uncaught ValueError
  /\ Prediction_1755397003498.main (mk_response history_malformed)
     = Uncaught ValueError.
Proof.
  split; [| split; [| split]].
  - intros [msg H]. vm_compute in H. discriminate H.
  - intros [msg H]. vm_compute in H. discriminate H.
  - vm_compute. reflexivity.
  - vm_compute. reflexivity.
Qed.

(** C8, amended: a malformed number field is not turned into an error
    mapping; the failing conversion is not caught.  In Mode B, a first
    record whose number is a string of ASCII characters that [int] rejects
    ends the three scripts with an uncaught ValueError.  In Mode A, when
    the numbers are written in ASCII characters, a record whose number, as
    text, holds a character that is neither a decimal digit nor an
    underscore ends both scripts with an uncaught exception. *)
Theorem C8_malformed_number_uncaught :
  (forall (data : response) (first : record) (rest : list record) (s : string),
      has_issues data (first :: rest) ->
      first !! "number"%string = Some (VStr s) ->
      string_all is_ascii s = true ->
      int_of_string s = Raise ValueError ->
      WinLose_1755398394420.main data = Uncaught ValueError
      /\ WinLose_1755398401488.main data = Uncaught ValueError
      /\ WinLose_1755398410429.main data = Uncaught ValueError)
  /\ (forall (data : response) (issues : list record) (item : record),
      has_issues data issues ->
      string_all is_ascii (all_numbers_str issues) = true ->
      In item issues ->
      string_all digit_or_underscore
        (py_str (default (VInt 0) (item !! "number"%string))) = false ->
      (exists e, Prediction_1755397003498.main data = Uncaught e)
      /\ (exists e, Prediction_1755397014428.main data = Uncaught e)).
Proof.
  split.
  - intros data first rest s Hdata Hnum _ Hint.
    unfold WinLose_1755398394420.main, WinLose_1755398401488.main,
      WinLose_1755398410429.main.
    rewrite !(with_issues_has data (first :: rest)) by exact Hdata.
    unfold WinLose_1755398394420.on_issues, WinLose_1755398401488.on_issues,
      WinLose_1755398410429.on_issues, dict_get.
    rewrite Hnum. change (py_int (default (VInt 0) (Some (VStr s))))
      with (int_of_string s). rewrite Hint.
    repeat split; reflexivity.
  - intros data issues item Hdata _ Hin Hbad.
    unfold Prediction_1755397003498.main, Prediction_1755397014428.main.
    rewrite !(with_issues_has data issues) by exact Hdata.
    assert (forall r, ~ (Prediction_1755397003498.result issues = Ok r
                         \/ Prediction_1755397014428.result issues = Ok r))
      as Hnone.
    { intros r Hr.
      destruct (result_next_issue_number issues r Hr)
        as (next & n & d & _ & Hd & Hn & _).
      pose proof (modeA_digits_or_underscores _ d n Hd Hn) as Hall.
      pose proof (string_all_field _ issues item Hall Hin) as Hitem.
      unfold dict_get in Hitem. congruence. }
    split.
    + destruct (Prediction_1755397003498.result issues) as [r | e] eqn:E.
      * destruct (Hnone r). left. reflexivity.
      * exists e. reflexivity.
    + destruct (Prediction_1755397014428.result issues) as [r | e] eqn:E.
      * destruct (Hnone r). right. reflexivity.
      * exists e. reflexivity.
Qed.

Lemma C8_malformed_number_uncaught_witness :
  has_issues (mk_response history_malformed) history_malformed
  /\ mk_record (VStr "abc") (VStr "100") !! "number"%string = Some (VStr "abc")
  /\ string_all is_ascii "abc" = true
  /\ string_all is_ascii (all_numbers_str history_malformed) = true
  /\ int_of_string "abc" = Raise ValueError
  /\ string_all digit_or_underscore "abc" = false
  /\ (WinLose_1755398394420.main (mk_response history_malformed)
      = Uncaught ValueError
      /\ WinLose_1755398401488.main (mk_response history_malformed)
         = Uncaught ValueError
      /\ WinLose_1755398410429.main (mk_response history_malformed)
         = Uncaught ValueError)
  /\ ((exists e, Prediction_1755397003498.main (mk_response history_malformed)
                 = Uncaught e)
      /\ (exists e, Prediction_1755397014428.main (mk_response history_malformed)
                    = Uncaught e)).
Proof.
  assert (mk_record (VStr "abc") (VStr "100") !! "number"%string
          = Some (VStr "abc")) as Hnum by (vm_compute; reflexivity).
  assert (int_of_string "abc" = Raise ValueError) as Hint
    by (vm_compute; reflexivity).
  assert (string_all is_ascii "abc" = true) as Hascii
    by (vm_compute; reflexivity).
  assert (string_all is_ascii (all_numbers_str history_malformed) = true)
    as Hascii' by (vm_compute; reflexivity).
  split; [apply has_issues_mk_response |]. split; [exact Hnum |].
  split; [exact Hascii |]. split; [exact Hascii' |].
  split; [exact Hint |]. split; [reflexivity |]. split.
  - exact (proj1 C8_malformed_number_uncaught (mk_response history_malformed)
             (mk_record (VStr "abc") (VStr "100")) [] "abc"%string
             (has_issues_mk_response history_malformed) Hnum Hascii Hint).
  - apply (proj2 C8_malformed_number_uncaught (mk_response history_malformed)
             history_malformed (mk_record (VStr "abc") (VStr "100"))
             (has_issues_mk_response history_malformed) Hascii').
    + left. reflexivity.
    + vm_compute. reflexivity.
Defined.

(** An underscore between digits goes through Mode A unnoticed. *)
Example underscore_accepted :
  Prediction_1755397014428.result
    [mk_record (VStr "1") (VStr "4"); mk_record (VStr "_") (VStr "3");
     mk_record (VStr "4") (VStr "2"); mk_record (VStr "5") (VStr "1")]
  = Ok [("next_issue_number"%string, VStr "5");
        ("all_numbers"%string, VInt 145);
        ("computed_result"%string, VStr "9 Big")].
Proof. vm_compute. reflexivity. Qed.

(** * Further properties of the scripts *)

(** ** The reduction, in closed terms *)

(** X1: on a non-negative total the loop of lines 46 to 48 returns the
    digital root: 0 for the total 0 and 1 + (total - 1) mod 9 otherwise,
    that is the one digit between 0 and 9 that is congruent to the total
    modulo 9 and is 0 only for the total 0; a total of at most 9 is
    returned as it is, and on the result the loop does nothing more. *)
Theorem X1_reduce_digital_root (total : Z) :
  0 <= total ->
  exists d : Z,
    reduce total = Ok d
    /\ d = (if total =? 0 then 0 else 1 + (total - 1) mod 9)
    /\ 0 <= d <= 9
    /\ d mod 9 = total mod 9
    /\ (d = 0 <-> total = 0)
    /\ (total <= 9 -> d = total)
    /\ reduce d = Ok d.
Proof.
  intros Hnn. exists (digital_root total).
  pose proof (digital_root_range total Hnn) as Hr.
  split; [apply reduce_digital_root, Hnn |].
  split; [reflexivity |]. split; [exact Hr |]. repeat split.
  - unfold digital_root. destruct (Z.eqb_spec total 0) as [-> | Hne];
      [reflexivity |].
    rewrite Z.add_mod_idemp_r by lia. f_equal. lia.
  - unfold digital_root. destruct (Z.eqb_spec total 0) as [-> | Hne];
      [reflexivity |].
    pose proof (Z.mod_pos_bound (total - 1) 9 ltac:(lia)). lia.
  - intros ->. unfold digital_root. reflexivity.
  - intros Hle. apply digital_root_small. lia.
  - rewrite reduce_digital_root by lia.
    rewrite (digital_root_small (digital_root total)) by lia. reflexivity.
Qed.

Lemma X1_reduce_digital_root_witness :
  0 <= 99 /\
  exists d : Z,
    reduce 99 = Ok d
    /\ d = (if 99 =? 0 then 0 else 1 + (99 - 1) mod 9)
    /\ 0 <= d <= 9
    /\ d mod 9 = 99 mod 9
    /\ (d = 0 <-> 99 = 0)
    /\ (99 <= 9 -> d = 99)
    /\ reduce d = Ok d.
Proof. split; [lia |]. apply (X1_reduce_digital_root 99). lia. Defined.

(** ** What a Mode A run can print *)

Lemma int_at_range (s : string) (i v : Z) : int_at s i = Ok v -> 0 <= v <= 9.
Proof.
  unfold int_at, str_index.
  destruct ((_ <? 0) || _); [discriminate |].
  destruct (String.get _ s) as [c |]; [| discriminate]. cbn [bind].
  intros H. pose proof (int_of_string_char_digit c v H) as Hc.
  rewrite (int_of_string_digit_char c _ (is_digit_value c Hc)) in H.
  injection H as <-. apply (digit_value_range c), is_digit_value, Hc.
Qed.

Lemma result_digit_range (s : string) (d : Z) :
  result_digit s = Ok d -> 0 <= d <= 9.
Proof.
  unfold result_digit.
  destruct (int_at s 0) as [first |]; [| discriminate]. cbn [bind].
  destruct (int_at s (py_len s - first)) as [a |] eqn:Ha; [| discriminate].
  cbn [bind].
  destruct (if 0 <=? py_len s - first - 1
            then int_at s (py_len s - first - 1) else Ok 0) as [b |] eqn:Hb;
    [| discriminate].
  cbn [bind].
  destruct (int_at s (-1)) as [c |] eqn:Hc; [| discriminate]. cbn [bind].
  apply int_at_range in Ha. apply int_at_range in Hc.
  assert (0 <= b <= 9) as Hb'.
  { destruct (0 <=? py_len s - first - 1);
      [apply int_at_range in Hb; exact Hb | injection Hb as <-; lia]. }
  rewrite reduce_digital_root by nia. intros [= <-].
  apply digital_root_range. nia.
Qed.

Lemma scan_digits_nonneg (s : string) (prev_us : bool) (acc v : Z)
  (rest : string) :
  scan_digits s prev_us acc = Some (v, rest) -> 0 <= acc -> 0 <= v.
Proof.
  revert prev_us acc. induction s as [| c s IH]; intros prev_us acc H Hacc.
  - cbn in H. destruct prev_us; [discriminate |]. injection H as <- _. exact Hacc.
  - cbn [scan_digits] in H. destruct (digit_value c) as [d |] eqn:Hd.
    + apply digit_value_range in Hd. apply (IH _ _ H). lia.
    + destruct (is_underscore c), prev_us; try discriminate.
      * apply (IH _ _ H Hacc).
      * injection H as <- _. exact Hacc.
Qed.

Lemma int_of_string_unsigned_nonneg (c : ascii) (r : string) (n : Z) :
  is_digit c = true -> int_of_string (String c r) = Ok n -> 0 <= n.
Proof.
  intros Hc H. rewrite (int_of_string_unsigned c r Hc) in H.
  unfold parse_magnitude in H. rewrite (is_digit_value c Hc) in H.
  destruct (scan_digits (String c r) false 0) as [[v rest] |] eqn:Hscan;
    [| discriminate].
  destruct (skip_space rest); [| discriminate]. injection H as <-.
  apply (scan_digits_nonneg _ _ _ _ _ Hscan). lia.
Qed.

(** X2: whatever the records, a mapping printed by a Mode A script has the
    three fields in this order, a digit between 0 and 9 in the result text
    with the label Small exactly when the digit is at most 4, and an
    all_numbers that is not negative. *)
Theorem X2_modeA_output_shape (issues : list record)
  (r : list (string * pyval)) :
  Prediction_1755397003498.result issues = Ok r
  \/ Prediction_1755397014428.result issues = Ok r ->
  exists (next : string) (n d : Z),
    r = [("next_issue_number"%string, VStr next);
         ("all_numbers"%string, VInt n);
         ("computed_result"%string,
           VStr (pretty d +:+ " " +:+ (if d <=? 4 then "Small" else "Big")))]
    /\ 0 <= d <= 9 /\ 0 <= n.
Proof.
  intros Hr.
  destruct (result_next_issue_number issues r Hr)
    as (next & n & d & _ & Hd & Hn & ->).
  exists next, n, d. split; [reflexivity |].
  split; [apply (result_digit_range _ _ Hd) |].
  unfold result_digit in Hd.
  destruct (int_at (all_numbers_str issues) 0) as [first |] eqn:Hfirst;
    [| discriminate].
  destruct (int_at_first_digit _ _ Hfirst) as (c & rest & Hs & Hc).
  rewrite Hs in Hn. apply (int_of_string_unsigned_nonneg c rest n Hc Hn).
Qed.

Lemma X2_modeA_output_shape_witness :
  exists (next : string) (n d : Z),
    [("next_issue_number"%string, VStr "105");
     ("all_numbers"%string, VInt 4917);
     ("computed_result"%string, VStr "1 Small")]
    = [("next_issue_number"%string, VStr next);
       ("all_numbers"%string, VInt n);
       ("computed_result"%string,
         VStr (pretty d +:+ " " +:+ (if d <=? 4 then "Small" else "Big")))]
    /\ 0 <= d <= 9 /\ 0 <= n.
Proof.
  apply (X2_modeA_output_shape history_4917). left. vm_compute. reflexivity.
Defined.

(** ** Which digit strings Mode A accepts *)

Lemma result_digit_far (digits : string) :
  digits <> EmptyString -> is_digit_string digits = true ->
  digit_at digits 0 = 0 \/ 2 * py_len digits < digit_at digits 0 ->
  result_digit digits = Raise IndexError.
Proof.
  intros Hne Hd Hfirst. pose proof (py_len_pos digits Hne) as Hlen.
  unfold result_digit.
  rewrite (int_at_digits digits 0 Hd) by lia. cbn [bind].
  change (Z.to_nat 0) with 0%nat.
  rewrite int_at_out_of_range by lia. reflexivity.
Qed.

(** X3: on a non-empty string of digits (and readable issue numbers) a
    Mode A script prints a result exactly when the first digit lies between
    1 and twice the length; for a first digit 0, or larger than twice the
    length, the read at position length - first is out of range and both
    scripts end with an uncaught IndexError. *)
Theorem X3_modeA_accepts_iff (issues : list record) (next : string) :
  let digits := all_numbers_str issues in
  let length := Z.of_nat (String.length digits) in
  let first := digit_at digits 0 in
  digits <> EmptyString ->
  is_digit_string digits = true ->
  next_issue_number issues = Ok next ->
  ((exists r, Prediction_1755397003498.result issues = Ok r)
   <-> 1 <= first <= 2 * length)
  /\ ((exists r, Prediction_1755397014428.result issues = Ok r)
      <-> 1 <= first <= 2 * length)
  /\ (first = 0 \/ 2 * length < first ->
      Prediction_1755397003498.result issues = Raise IndexError
      /\ Prediction_1755397014428.result issues = Raise IndexError).
Proof.
  intros digits length first Hne Hd Hnext.
  pose proof (digit_at_range digits 0 Hd) as Hrange. fold first in Hrange.
  assert (first = 0 \/ 2 * length < first ->
          Prediction_1755397003498.result issues = Raise IndexError
          /\ Prediction_1755397014428.result issues = Raise IndexError) as Hbad.
  { intros Hfirst. rewrite result_1_blocks, result_2_blocks. fold digits.
    rewrite Hnext, (result_digit_far digits Hne Hd Hfirst).
    split; reflexivity. }
  assert (1 <= first <= 2 * length ->
          exists d, result_digit digits = Ok d) as Hgood.
  { intros Hfirst. destruct (Z_le_gt_dec first length) as [Hle | Hgt].
    - eexists. apply (result_digit_in_range digits Hne Hd).
      unfold py_len. fold first length. lia.
    - eexists. apply (result_digit_wrapped digits Hne Hd).
      unfold py_len. fold first length. lia. }
  assert (1 <= first <= 2 * length ->
          (exists r, Prediction_1755397003498.result issues = Ok r)
          /\ (exists r, Prediction_1755397014428.result issues = Ok r)) as Hok.
  { intros Hfirst. destruct (Hgood Hfirst) as [d Hdig].
    rewrite result_1_blocks, result_2_blocks. fold digits.
    rewrite Hnext, Hdig, (int_of_string_digits digits Hd Hne). cbn [bind].
    split; eexists; reflexivity. }
  assert (~ (1 <= first <= 2 * length) -> first = 0 \/ 2 * length < first)
    as Hcases by lia.
  split; [| split; [| exact Hbad]].
  - split; [| intros H; apply (Hok H)].
    intros [r Hr]. destruct (Z_le_gt_dec 1 first) as [H1 | H1];
      destruct (Z_le_gt_dec first (2 * length)) as [H2 | H2]; try lia;
      destruct Hbad as [Hb _]; try lia; congruence.
  - split; [| intros H; apply (Hok H)].
    intros [r Hr]. destruct (Z_le_gt_dec 1 first) as [H1 | H1];
      destruct (Z_le_gt_dec first (2 * length)) as [H2 | H2]; try lia;
      destruct Hbad as [_ Hb]; try lia; congruence.
Qed.

Lemma X3_modeA_accepts_iff_witness :
  all_numbers_str history_9 = "9"%string
  /\ Prediction_1755397003498.result history_9 = Raise IndexError
  /\ Prediction_1755397014428.result history_9 = Raise IndexError.
Proof.
  split; [vm_compute; reflexivity |].
  refine (proj2 (proj2 (X3_modeA_accepts_iff history_9 "42"%string _ _ _)) _).
  - vm_compute. discriminate.
  - vm_compute. reflexivity.
  - vm_compute. reflexivity.
  - right. vm_compute. reflexivity.
Defined.

(** ** A last digit 0 *)

Lemma int_at_last_char (s : string) (v : Z) (c : ascii) :
  int_at s (-1) = Ok v -> last_char s = Some c ->
  int_of_string (String c EmptyString) = Ok v.
Proof.
  intros H Hl. unfold int_at, str_index in H.
  change (-1 <? 0) with true in H. cbv beta zeta iota in H.
  destruct ((-1 + py_len s <? 0) || (py_len s <=? -1 + py_len s));
    [discriminate |].
  replace (Z.to_nat (-1 + py_len s)) with (String.length s - 1)%nat in H
    by (unfold py_len; lia).
  rewrite get_last_char, Hl in H. exact H.
Qed.

(** X4: the last digit multiplies the total (line 43), so whenever the
    digit string ends in 0 a Mode A script that prints a result prints
    "0 Small", whatever the other digits are. *)
Theorem X4_last_digit_zero (issues : list record) (r : list (string * pyval)) :
  last_char (all_numbers_str issues) = Some "0"%char ->
  Prediction_1755397003498.result issues = Ok r
  \/ Prediction_1755397014428.result issues = Ok r ->
  In ("computed_result"%string, VStr "0 Small") r.
Proof.
  intros Hlast Hr.
  destruct (result_next_issue_number issues r Hr)
    as (next & n & d & _ & Hd & _ & ->).
  unfold result_digit in Hd.
  destruct (int_at (all_numbers_str issues) 0) as [first |]; [| discriminate].
  cbn [bind] in Hd.
  destruct (int_at (all_numbers_str issues) _) as [a |]; [| discriminate].
  cbn [bind] in Hd.
  destruct (if 0 <=? _ then _ else _) as [b |]; [| discriminate].
  cbn [bind] in Hd.
  destruct (int_at (all_numbers_str issues) (-1)) as [c |] eqn:Hc;
    [| discriminate].
  cbn [bind] in Hd.
  pose proof (int_at_last_char _ _ _ Hc Hlast) as H0.
  vm_compute in H0. injection H0 as <-.
  rewrite Z.mul_0_r in Hd. rewrite reduce_loop_eq in Hd.
  change (9 <? 0) with false in Hd. injection Hd as <-.
  right. right. left. reflexivity.
Qed.

Lemma X4_last_digit_zero_witness :
  last_char (all_numbers_str history_4910) = Some "0"%char
  /\ In ("computed_result"%string, VStr "0 Small")
       [("next_issue_number"%string, VStr "105");
        ("all_numbers"%string, VInt 4910);
        ("computed_result"%string, VStr "0 Small")].
Proof.
  assert (last_char (all_numbers_str history_4910) = Some "0"%char) as H
    by (vm_compute; reflexivity).
  split; [exact H |].
  apply (X4_last_digit_zero history_4910 _ H). left. vm_compute. reflexivity.
Defined.

(** ** Issue numbers: needed, and what comes out of them *)

Lemma max_loop_ok_keys {A : Type} (key : A -> res Z) (l : list A)
  (maxitem best : A) (maxval : Z) :
  max_loop key l maxitem maxval = Ok best ->
  forall item, In item l -> exists k, key item = Ok k.
Proof.
  revert maxitem maxval. induction l as [| x l IH]; intros maxitem maxval H item Hin;
    [destruct Hin |].
  cbn [max_loop] in H. destruct (key x) as [kx |] eqn:Hkx; [| discriminate].
  cbn [bind] in H. destruct Hin as [<- | Hin]; [eauto |].
  destruct (maxval <? kx); eapply IH; eassumption.
Qed.

Lemma py_max_ok_keys {A : Type} (key : A -> res Z) (l : list A) (best : A) :
  py_max key l = Ok best ->
  l <> [] /\ forall item, In item l -> exists k, key item = Ok k.
Proof.
  destruct l as [| x l]; [discriminate |]. cbn [py_max].
  destruct (key x) as [kx |] eqn:Hkx; [| discriminate]. cbn [bind].
  intros H. split; [discriminate |]. intros item [<- | Hin]; [eauto |].
  eapply max_loop_ok_keys; eassumption.
Qed.

Lemma next_issue_number_ok_keys (issues : list record) (next : string) :
  next_issue_number issues = Ok next ->
  issues <> [] /\ forall item, In item issues -> exists k, issue_key item = Ok k.
Proof.
  unfold next_issue_number.
  destruct (py_max issue_key issues) as [best |] eqn:Hmax; [| discriminate].
  intros _. eapply py_max_ok_keys. exact Hmax.
Qed.

(** X5: a Mode A script prints a result only if the list is not empty and
    every record, not just the one with the largest number, has an
    issueNumber that [int] accepts; the printed next_issue_number is then
    [str(m + 1)] for the largest of them. *)
Theorem X5_issue_numbers_needed (issues : list record)
  (r : list (string * pyval)) :
  Prediction_1755397003498.result issues = Ok r
  \/ Prediction_1755397014428.result issues = Ok r ->
  issues <> []
  /\ (forall item, In item issues ->
        exists v k, item !! "issueNumber"%string = Some v /\ py_int v = Ok k)
  /\ exists m, is_max_key issue_key issues m
               /\ In ("next_issue_number"%string, VStr (py_str (VInt (m + 1)))) r.
Proof.
  intros Hr.
  destruct (result_next_issue_number issues r Hr)
    as (next & n & d & Hnext & _ & _ & ->).
  destruct (next_issue_number_ok_keys issues next Hnext) as [Hne Hkeys].
  split; [exact Hne |]. split.
  - intros item Hin. destruct (Hkeys item Hin) as [k Hk].
    unfold issue_key, dict_getitem in Hk.
    destruct (item !! "issueNumber"%string) as [v |]; [| discriminate].
    exists v, k. split; [reflexivity | exact Hk].
  - destruct (next_issue_number_spec issues Hne Hkeys) as (m & Hmax & Hm).
    exists m. split; [exact Hmax |].
    rewrite Hm in Hnext. injection Hnext as <-. left. reflexivity.
Qed.

Lemma X5_issue_numbers_needed_witness :
  history_4917 <> []
  /\ (forall item, In item history_4917 ->
        exists v k, item !! "issueNumber"%string = Some v /\ py_int v = Ok k)
  /\ exists m, is_max_key issue_key history_4917 m
               /\ In ("next_issue_number"%string, VStr (py_str (VInt (m + 1))))
                    [("next_issue_number"%string, VStr "105");
                     ("all_numbers"%string, VInt 4917);
                     ("computed_result"%string, VStr "1 Small")].
Proof.
  apply (X5_issue_numbers_needed history_4917). left. vm_compute. reflexivity.
Defined.

(** ** [int] reads back what [str] writes *)

Lemma is_digit_string_app (a b : string) :
  is_digit_string (a +:+ b) = is_digit_string a && is_digit_string b.
Proof.
  induction a as [| c a IH]; [reflexivity |].
  rewrite string_app_cons. cbn [is_digit_string]. rewrite IH.
  apply andb_assoc.
Qed.

Lemma digits_value_app (a b : string) (acc : Z) :
  digits_value (a +:+ b) acc = digits_value b (digits_value a acc).
Proof.
  revert acc. induction a as [| c a IH]; intros acc; [reflexivity |].
  rewrite string_app_cons. cbn [digits_value]. apply IH.
Qed.

(** The decimal text of a positive number is a digit string that reads
    back as the number. *)
Lemma render_reads_back (n : Z) :
  0 < n ->
  is_digit_string (render n) = true
  /\ render n <> EmptyString
  /\ digits_value (render n) 0 = n.
Proof.
  intros Hpos. assert (0 <= n) as Hnn by lia. revert Hpos. pattern n.
  apply Zlt_0_ind; [clear n Hnn | exact Hnn].
  intros n IH _ Hpos.
  pose proof (Z.div_mod n 10 ltac:(lia)) as Hdm.
  pose proof (Z.mod_pos_bound n 10 ltac:(lia)) as Hm.
  assert (0 <= n `div` 10 < n) as Hq
    by (split; [apply Z.div_pos; lia | apply Z.div_lt; lia]).
  set (q := n `div` 10) in *. set (m := n `mod` 10) in *.
  clearbody q m. subst n.
  rewrite render_step by lia.
  assert (digit_value (pretty_N_char (Z.to_N m)) = Some m) as Hc.
  { rewrite digit_value_pretty_char by lia. f_equal. lia. }
  assert (is_digit (pretty_N_char (Z.to_N m)) = true) as Hdig
    by (unfold is_digit; rewrite Hc; reflexivity).
  rewrite is_digit_string_app, digits_value_app.
  cbn [is_digit_string digits_value]. rewrite Hdig, Hc.
  change (default 0 (Some m)) with m.
  destruct (Z.eq_dec q 0) as [H0 | Hne].
  - rewrite H0. change (render 0) with EmptyString.
    split; [reflexivity |]. split; [discriminate |].
    cbn [String.append digits_value]. lia.
  - destruct (IH q ltac:(lia) ltac:(lia)) as (Hd & Hne' & Hv).
    rewrite Hd, Hv. split; [reflexivity |]. split; [| reflexivity].
    destruct (render q); [congruence | discriminate].
Qed.

Lemma parse_magnitude_digits (s : string) :
  is_digit_string s = true -> s <> EmptyString ->
  parse_magnitude s = Some (digits_value s 0).
Proof.
  intros Hs Hne. destruct s as [| c r]; [congruence |].
  pose proof Hs as Hs'. cbn in Hs'. apply andb_true_iff in Hs' as [Hc _].
  unfold parse_magnitude. rewrite (is_digit_value c Hc).
  rewrite (scan_digits_digits (String c r) false 0 Hs (or_intror eq_refl)).
  reflexivity.
Qed.

Lemma int_of_string_pretty (n : Z) : int_of_string (pretty n) = Ok n.
Proof.
  destruct n as [| p | p].
  - reflexivity.
  - rewrite pretty_pos_render by lia.
    destruct (render_reads_back (Z.pos p) ltac:(lia)) as (Hd & Hne & Hv).
    rewrite (int_of_string_digits _ Hd Hne), Hv. reflexivity.
  - change (pretty (Z.neg p)) with (String "-" (render (Z.pos p))).
    destruct (render_reads_back (Z.pos p) ltac:(lia)) as (Hd & Hne & Hv).
    change (int_of_string (String "-" (render (Z.pos p))))
      with (match parse_magnitude (render (Z.pos p)) with
            | Some v => Ok (- v)
            | None => Raise ValueError
            end).
    rewrite (parse_magnitude_digits _ Hd Hne), Hv. reflexivity.
Qed.

(** X6: [int(str(n))] is [n] for every integer, so the next issue number
    that Mode A computes is itself an issue number that [int] reads, and it
    is larger than the issue number of every record of the history. *)
Theorem X6_next_issue_number_reads_back (issues : list record) (next : string) :
  next_issue_number issues = Ok next ->
  exists k : Z,
    py_int (VStr next) = Ok k
    /\ py_str (VInt k) = next
    /\ forall item ki, In item issues -> issue_key item = Ok ki -> ki < k.
Proof.
  intros Hnext.
  destruct (next_issue_number_ok_keys issues next Hnext) as [Hne Hkeys].
  destruct (next_issue_number_spec issues Hne Hkeys) as (m & [_ Hub] & Hm).
  rewrite Hm in Hnext. injection Hnext as <-. exists (m + 1).
  split; [apply int_of_string_pretty |]. split; [reflexivity |].
  intros item ki Hin Hki. pose proof (Hub item ki Hin Hki). lia.
Qed.

Lemma X6_next_issue_number_reads_back_witness :
  next_issue_number history_unordered = Ok "20250817100054"%string
  /\ exists k : Z,
      py_int (VStr "20250817100054") = Ok k
      /\ py_str (VInt k) = "20250817100054"%string
      /\ forall item ki, In item history_unordered ->
                         issue_key item = Ok ki -> ki < k.
Proof.
  assert (next_issue_number history_unordered = Ok "20250817100054"%string)
    as H by (vm_compute; reflexivity).
  split; [exact H |].
  apply (X6_next_issue_number_reads_back history_unordered _ H).
Defined.

(** ** When all_numbers shows the digits as they are *)

(** X7: for a non-empty string of digits, the decimal text of the
    all_numbers value (line 54) is the digit string itself exactly when the
    string is "0" or does not start with 0; a leading zero is always lost. *)
Theorem X7_leading_zero_loss (digits : string) :
  digits <> EmptyString ->
  is_digit_string digits = true ->
  exists n : Z,
    int_of_string digits = Ok n
    /\ (py_str (VInt n) = digits
        <-> digits = "0"%string \/ digit_at digits 0 <> 0).
Proof.
  intros Hne Hd. exists (digits_value digits 0).
  split; [apply (int_of_string_digits digits Hd Hne) |].
  destruct digits as [| c r]; [congruence |]. clear Hne.
  pose proof Hd as Hd'. cbn in Hd'. apply andb_true_iff in Hd' as [Hc Hr].
  pose proof (is_digit_value c Hc) as Hv.
  pose proof (digit_value_range c _ Hv) as Hrange.
  change (digit_at (String c r) 0) with (default 0 (digit_value c)).
  cbn [digits_value py_str]. rewrite Z.mul_0_r, Z.add_0_l.
  pose proof (pretty_char_of_digit c _ Hv) as Hchar.
  destruct (Z.eq_dec (default 0 (digit_value c)) 0) as [Hz | Hnz].
  - rewrite Hz in *. cbn in Hchar. subst c.
    pose proof (digits_value_nonneg r 0 Hr ltac:(lia)) as Hnn.
    destruct r as [| c' r'].
    + cbn. split; [intros _; left; reflexivity | reflexivity].
    + split; [| intros [H | H]; [discriminate H | congruence]].
      intros Heq. exfalso.
      destruct (Z.eq_dec (digits_value (String c' r') 0) 0) as [H0 | H0].
      * rewrite H0 in Heq. discriminate Heq.
      * rewrite pretty_pos_render in Heq by lia.
        pose proof (pad_render_digits_value (String c' r') Hr) as Hpad.
        apply (f_equal String.length) in Hpad. unfold pad_left_zeros in Hpad.
        rewrite string_length_app, zeros_length, Heq in Hpad.
        cbn [String.length] in Hpad. lia.
  - split; [intros _; right; exact Hnz | intros _].
    pose proof (digits_value_nonneg r (default 0 (digit_value c)) Hr ltac:(lia)).
    rewrite pretty_pos_render by lia.
    rewrite render_digits_value by (assumption || lia).
    replace (default 0 (digit_value c))
      with (10 * 0 + default 0 (digit_value c)) at 1 by lia.
    rewrite render_step by lia. rewrite Hchar. reflexivity.
Qed.

Lemma X7_leading_zero_loss_witness :
  "0049"%string <> EmptyString
  /\ is_digit_string "0049" = true
  /\ exists n : Z,
      int_of_string "0049" = Ok n
      /\ (py_str (VInt n) = "0049"%string
          <-> "0049"%string = "0"%string \/ digit_at "0049" 0 <> 0).
Proof.
  split; [discriminate |]. split; [reflexivity |].
  apply (X7_leading_zero_loss "0049"); [discriminate | reflexivity].
Defined.

(** ** Every outcome of Mode B *)

Lemma int_of_string_raises (s : string) (e : exn) :
  int_of_string s = Raise e -> e = ValueError.
Proof.
  unfold int_of_string.
  destruct (match skip_space s with
            | String "+" r => (false, r)
            | String "-" r => (true, r)
            | _ => (false, skip_space s)
            end) as [neg s2].
  destruct (parse_magnitude s2); [discriminate | congruence].
Qed.

(** X8: on a response of the typed shape, that is an object whose entries
    are objects whose entries are lists of objects, the number of a record
    being absent, a string, an integer, a boolean or null, a Mode B script
    ends in one of five ways and no other: the mapping "No data
    available.", the mapping "No issues available.", a mapping with the
    single field number, an uncaught ValueError, or an uncaught TypeError.
    The default 0 of [get] stands in for a missing number only: a number
    that is null ends the script with the TypeError, a boolean is printed
    as 1 or 0, and an integer as it is.  (Outside this shape other
    exceptions occur: a list that is an object, a record that is not one,
    a float that is infinite.) *)
Theorem X8_modeB_outcomes :
  (forall data : response,
      let o := WinLose_1755398394420.main data in
      WinLose_1755398401488.main data = o
      /\ WinLose_1755398410429.main data = o
      /\ (o = Printed no_data \/ o = Printed no_issues
          \/ (exists n, o = Printed [("number"%string, VInt n)])
          \/ o = Uncaught ValueError \/ o = Uncaught TypeError))
  /\ (forall (data : response) (first : record) (rest : list record),
      has_issues data (first :: rest) ->
      (first !! "number"%string = Some VNone ->
       WinLose_1755398394420.main data = Uncaught TypeError)
      /\ (forall b : bool, first !! "number"%string = Some (VBool b) ->
          WinLose_1755398394420.main data
          = Printed [("number"%string, VInt (if b then 1 else 0))])
      /\ (forall n : Z, first !! "number"%string = Some (VInt n) ->
          WinLose_1755398394420.main data = Printed [("number"%string, VInt n)])).
Proof.
  split.
  - intros data o. split; [reflexivity |]. split; [reflexivity |].
    unfold o, WinLose_1755398394420.main, with_issues.
    destruct (data !! "data"%string) as [d |]; [| left; reflexivity].
    destruct (d !! "list"%string) as [issues |]; [| left; reflexivity].
    destruct issues as [| first rest]; [right; left; reflexivity |].
    unfold WinLose_1755398394420.on_issues.
    destruct (py_int (dict_get first "number" (VInt 0))) as [n | e] eqn:Hn;
      cbn [bind run].
    + right. right. left. exists n. reflexivity.
    + right. right. right.
      destruct (dict_get first "number" (VInt 0)) as [s | z | b |];
        cbn [py_int] in Hn; try discriminate Hn.
      * left. rewrite (int_of_string_raises s e Hn). reflexivity.
      * right. injection Hn as <-. reflexivity.
  - intros data first rest Hdata.
    unfold WinLose_1755398394420.main.
    rewrite (with_issues_has data (first :: rest)) by exact Hdata.
    unfold WinLose_1755398394420.on_issues, dict_get.
    repeat split; intros; match goal with H : _ !! _ = _ |- _ => rewrite H end;
      reflexivity.
Qed.

Lemma X8_modeB_outcomes_witness :
  has_issues (mk_response history_null) history_null
  /\ mk_record VNone (VStr "100") !! "number"%string = Some VNone
  /\ WinLose_1755398394420.main (mk_response history_null) = Uncaught TypeError.
Proof.
  assert (mk_record VNone (VStr "100") !! "number"%string = Some VNone) as H
    by (vm_compute; reflexivity).
  split; [apply has_issues_mk_response |]. split; [exact H |].
  exact (proj1 (proj2 X8_modeB_outcomes (mk_response history_null)
                  (mk_record VNone (VStr "100")) []
                  (has_issues_mk_response history_null)) H).
Defined.

(** ** When "No data available." is printed *)

(** On a response of the typed shape each of the five scripts prints the
    mapping "No data available." exactly when there is no list under
    data.list; with a list, a Mode A script prints its result or ends with
    an exception, and never prints an error mapping of its own. *)
Lemma typed_no_data_iff (data : response) :
  let missing := ~ exists issues, has_issues data issues in
  (Prediction_1755397003498.main data = Printed no_data <-> missing)
  /\ (Prediction_1755397014428.main data = Printed no_data <-> missing)
  /\ (WinLose_1755398394420.main data = Printed no_data <-> missing)
  /\ (WinLose_1755398401488.main data = Printed no_data <-> missing)
  /\ (WinLose_1755398410429.main data = Printed no_data <-> missing)
  /\ (forall issues msg,
        has_issues data issues ->
        Prediction_1755397003498.main data <> Printed [("error"%string, VStr msg)]
        /\ Prediction_1755397014428.main data
           <> Printed [("error"%string, VStr msg)]).
Proof.
  intros missing.
  assert (forall issues, has_issues data issues ->
            forall msg,
              run (Prediction_1755397003498.result issues)
              <> Printed [("error"%string, VStr msg)]
              /\ run (Prediction_1755397014428.result issues)
                 <> Printed [("error"%string, VStr msg)]) as HA.
  { intros issues _ msg.
    split.
    - destruct (Prediction_1755397003498.result issues) as [r |] eqn:E;
        [| discriminate].
      destruct (result_next_issue_number issues r (or_introl E))
        as (? & ? & ? & _ & _ & _ & ->). discriminate.
    - destruct (Prediction_1755397014428.result issues) as [r |] eqn:E;
        [| discriminate].
      destruct (result_next_issue_number issues r (or_intror E))
        as (? & ? & ? & _ & _ & _ & ->). discriminate. }
  assert (forall issues, WinLose_1755398394420.on_issues issues <> Printed no_data)
    as HB.
  { intros [| first rest]; [discriminate |].
    unfold WinLose_1755398394420.on_issues.
    destruct (py_int _); discriminate. }
  destruct (data !! "data"%string) as [d |] eqn:Hd.
  - destruct (d !! "list"%string) as [issues |] eqn:Hl.
    + assert (has_issues data issues) as Hhas by (exists d; auto).
      assert (~ missing) as Hnot by (intros H; apply H; eauto).
      unfold Prediction_1755397003498.main, Prediction_1755397014428.main,
        WinLose_1755398394420.main, WinLose_1755398401488.main,
        WinLose_1755398410429.main.
      rewrite !(with_issues_has data issues) by exact Hhas.
      destruct (HA issues Hhas "No data available."%string) as [H1 H2].
      assert (forall o : outcome,
                 o <> Printed no_data -> (o = Printed no_data <-> missing))
        as Hiff.
      { intros o Ho. split; intros H; [contradiction | contradiction (Hnot H)]. }
      split; [apply Hiff, H1 |]. split; [apply Hiff, H2 |].
      split; [apply Hiff, HB |]. split; [apply Hiff, HB |].
      split; [apply Hiff, HB |].
      intros _ msg _. apply (HA issues Hhas).
    + assert missing as Hm.
      { intros (issues & d' & Hd' & Hl'). congruence. }
      unfold Prediction_1755397003498.main, Prediction_1755397014428.main,
        WinLose_1755398394420.main, WinLose_1755398401488.main,
        WinLose_1755398410429.main, with_issues. rewrite Hd, Hl.
      repeat split; auto; exfalso; apply Hm; eauto.
  - assert missing as Hm.
    { intros (issues & d' & Hd' & Hl'). congruence. }
    unfold Prediction_1755397003498.main, Prediction_1755397014428.main,
      WinLose_1755398394420.main, WinLose_1755398401488.main,
      WinLose_1755398410429.main, with_issues. rewrite Hd.
    repeat split; auto; exfalso; apply Hm; eauto.
Qed.


(** ** Mode A reads two fields only *)

Lemma same_fields_issue_key (a b : record) :
  same_fields a b -> issue_key a = issue_key b.
Proof.
  intros [Hi _]. unfold issue_key, dict_getitem. rewrite Hi. reflexivity.
Qed.

Lemma max_loop_same_fields (l l' : list record) (m m' : record) (v : Z) :
  Forall2 same_fields l l' -> same_fields m m' ->
  match max_loop issue_key l m v, max_loop issue_key l' m' v with
  | Ok a, Ok b => same_fields a b
  | Raise e, Raise e' => e = e'
  | _, _ => False
  end.
Proof.
  intros Hl. revert m m' v.
  induction Hl as [| x x' l l' Hx Hl IH]; intros m m' v Hm; [exact Hm |].
  cbn [max_loop]. rewrite <- (same_fields_issue_key x x' Hx).
  destruct (issue_key x) as [k | e]; cbn [bind]; [| reflexivity].
  destruct (v <? k); apply IH; assumption.
Qed.

Lemma next_issue_number_same_fields (l l' : list record) :
  Forall2 same_fields l l' -> next_issue_number l = next_issue_number l'.
Proof.
  intros Hl. unfold next_issue_number.
  destruct Hl as [| x x' l l' Hx Hl]; [reflexivity |].
  cbn [py_max]. rewrite <- (same_fields_issue_key x x' Hx).
  destruct (issue_key x) as [k | e]; cbn [bind]; [| reflexivity].
  pose proof (max_loop_same_fields l l' x x' k Hl Hx) as H.
  destruct (max_loop issue_key l x k) as [a | e],
           (max_loop issue_key l' x' k) as [b | e'];
    try contradiction; cbn [bind]; [| congruence].
  destruct H as [Hi _]. unfold dict_getitem. rewrite Hi. reflexivity.
Qed.

Lemma all_numbers_str_same_fields (l l' : list record) :
  Forall2 same_fields l l' -> all_numbers_str l = all_numbers_str l'.
Proof.
  unfold all_numbers_str.
  induction 1 as [| x x' l l' [_ Hx] Hl IH]; [reflexivity |].
  cbn [map str_join]. rewrite Hx, IH. reflexivity.
Qed.

(** X10: the result of a Mode A script depends on the records only through
    their issueNumber entry and the text of their number: an entry under
    any other key changes nothing, a missing number counts as the digit 0,
    and a number given as the integer 7 or as the string "7" counts the
    same. *)
Theorem X10_modeA_reads_two_fields :
  (forall l l' : list record,
      Forall2 same_fields l l' ->
      Prediction_1755397003498.result l = Prediction_1755397003498.result l'
      /\ Prediction_1755397014428.result l = Prediction_1755397014428.result l')
  /\ (forall (r : record) (key : string) (v : pyval),
      key <> "number"%string -> key <> "issueNumber"%string ->
      same_fields r (<[key := v]> r))
  /\ (forall r : record,
      r !! "number"%string = None ->
      same_fields r (<["number"%string := VInt 0]> r)
      /\ same_fields r (<["number"%string := VStr "0"]> r))
  /\ (forall (r : record) (n : Z),
      r !! "number"%string = Some (VInt n) ->
      same_fields r (<["number"%string := VStr (pretty n)]> r)).
Proof.
  split; [| split; [| split]].
  - intros l l' Hl. rewrite !result_1_blocks, !result_2_blocks.
    rewrite (next_issue_number_same_fields l l' Hl),
      (all_numbers_str_same_fields l l' Hl).
    split; reflexivity.
  - intros r key v Hn Hi. unfold same_fields, dict_get.
    rewrite !lookup_insert_ne by congruence. split; reflexivity.
  - intros r Hr. split; unfold same_fields, dict_get;
      rewrite lookup_insert_ne by discriminate;
      rewrite lookup_insert_eq, Hr; split; reflexivity.
  - intros r n Hr. unfold same_fields, dict_get.
    rewrite lookup_insert_ne by discriminate.
    rewrite lookup_insert_eq, Hr. split; reflexivity.
Qed.

Lemma history_4917_same_fields : Forall2 same_fields history_4917 history_4917_extra.
Proof.
  repeat constructor; vm_compute; reflexivity.
Qed.

Lemma X10_modeA_reads_two_fields_witness :
  Forall2 same_fields history_4917 history_4917_extra
  /\ Prediction_1755397003498.result history_4917
     = Prediction_1755397003498.result history_4917_extra
  /\ Prediction_1755397014428.result history_4917
     = Prediction_1755397014428.result history_4917_extra.
Proof.
  split; [exact history_4917_same_fields |].
  apply (proj1 X10_modeA_reads_two_fields _ _ history_4917_same_fields).
Defined.

Example envelope_ex1 :
  envelope (JObj {["data"%string := JNull]}) = Raise TypeError.
Proof. vm_compute. reflexivity. Qed.
Example envelope_ex2 :
  envelope (JObj {["data"%string := JObj {["list"%string := JList []]}]})
  = Ok (Some (JList [])).
Proof. vm_compute. reflexivity. Qed.
Example envelope_ex3 : envelope (JStr "no data") = Raise TypeError.
Proof. vm_compute. reflexivity. Qed.
Example start_ex (e : string) :
  Prediction_1755397003498_start.start_of (Raised true false e) = PrintsNoData.
Proof. vm_compute. reflexivity. Qed.

(** ** The test on the response *)

Lemma truthy_obj_lookup (m : gmap string json) (k : string) (v : json) :
  m !! k = Some v -> truthy (JObj m) = true.
Proof.
  intros H. cbn [truthy]. apply negb_true_iff, bool_decide_eq_false.
  apply (map_size_ne_0_lookup_2 m k). eauto.
Qed.

(** X11: the test of line 19 and the extraction of line 20 hand a list to
    the body exactly when the response is an object whose entry data is an
    object with an entry list.  Otherwise the script takes the else branch
    or ends with an uncaught TypeError, never with another exception; it
    ends with the TypeError, for one, whenever the entry data is null, a
    boolean or a number. *)
Theorem X11_envelope :
  (forall data issues : json,
      envelope data = Ok (Some issues)
      <-> exists (m d : gmap string json),
          data = JObj m /\ m !! "data"%string = Some (JObj d)
          /\ d !! "list"%string = Some issues)
  /\ (forall (data : json) (e : exn), envelope data = Raise e -> e = TypeError)
  /\ (forall (m : gmap string json) (d : json),
      m !! "data"%string = Some d ->
      d = JNull \/ (exists b, d = JBool b) \/ (exists z, d = JInt z) ->
      envelope (JObj m) = Raise TypeError).
Proof.
  split; [| split].
  - intros data issues. split.
    + unfold envelope. destruct (truthy data); [| discriminate].
      destruct data as [| b | z | s | l | m]; cbn [py_in py_subscript bind];
        try discriminate.
      * destruct (str_contains "data" s); discriminate.
      * destruct (existsb (json_eq_str "data") l); discriminate.
      * destruct (m !! "data"%string) as [d |] eqn:Hd; [| discriminate].
        cbn [bind].
        destruct d as [| b | z | s | l | d]; cbn [py_in py_subscript bind];
          try discriminate.
        -- destruct (str_contains "list" s); discriminate.
        -- destruct (existsb (json_eq_str "list") l); discriminate.
        -- destruct (d !! "list"%string) as [v |] eqn:Hl; [| discriminate].
           cbn [bind]. intros [= <-]. exists m, d. auto.
    + intros (m & d & -> & Hd & Hl). unfold envelope.
      rewrite (truthy_obj_lookup m _ _ Hd). cbn [py_in py_subscript bind].
      rewrite Hd. cbn [py_in py_subscript bind]. rewrite Hl. reflexivity.
  - intros data e. unfold envelope. destruct (truthy data); [| discriminate].
    destruct data as [| b | z | s | l | m]; cbn [py_in py_subscript bind];
      try congruence.
    + destruct (str_contains "data" s); congruence.
    + destruct (existsb (json_eq_str "data") l); congruence.
    + destruct (m !! "data"%string) as [d |] eqn:Hd; [| discriminate].
      cbn [bind].
      destruct d as [| b | z | s | l | d]; cbn [py_in py_subscript bind];
        try congruence.
      * destruct (str_contains "list" s); congruence.
      * destruct (existsb (json_eq_str "list") l); congruence.
      * destruct (d !! "list"%string); discriminate.
  - intros m d Hd Hcases. unfold envelope.
    rewrite (truthy_obj_lookup m _ _ Hd). cbn [py_in py_subscript bind].
    rewrite Hd. cbn [bind].
    destruct Hcases as [-> | [[b ->] | [z ->]]]; reflexivity.
Qed.

Lemma X11_envelope_witness :
  ({["data"%string := JNull]} : gmap string json) !! "data"%string = Some JNull
  /\ envelope (JObj {["data"%string := JNull]}) = Raise TypeError.
Proof.
  assert (({["data"%string := JNull]} : gmap string json) !! "data"%string
          = Some JNull) as H by (vm_compute; reflexivity).
  split; [exact H |].
  apply (proj2 (proj2 X11_envelope) _ JNull H). left. reflexivity.
Defined.

(** ** A failed fetch *)

(** X12: when the fetch raises an exception that one of the two except
    clauses catches, the text of the exception does not reach the output of
    the four scripts whose [fetch_data] returns an error dictionary: they
    take the else branch and print "No data available." only.  The fifth
    script prints the error in [fetch_data], under "Error fetching data"
    when the first clause matches, and prints "No data available." as
    well.  An exception that neither clause catches passes through. *)
Theorem X12_failed_fetch (req val : bool) (msg : string) :
  (req = true \/ val = true ->
   Prediction_1755397003498_start.start_of (Raised req val msg) = PrintsNoData
   /\ Prediction_1755397014428_start.start_of (Raised req val msg) = PrintsNoData
   /\ WinLose_1755398410429_start.start_of (Raised req val msg)
      = ([[("error"%string,
             VStr ((if req then "Error fetching data: "
                    else "Error parsing JSON: ") +:+ msg))]],
         PrintsNoData))
  /\ (req = false -> val = false ->
      Prediction_1755397003498_start.start_of (Raised req val msg)
      = Propagates msg
      /\ Prediction_1755397014428_start.start_of (Raised req val msg)
         = Propagates msg
      /\ WinLose_1755398410429_start.start_of (Raised req val msg)
         = ([], Propagates msg)).
Proof.
  split.
  - intros Hcaught.
    destruct req, val; try (destruct Hcaught; discriminate);
      repeat split; vm_compute; reflexivity.
  - intros -> ->. repeat split.
Qed.

Lemma X12_failed_fetch_witness :
  (true = true \/ false = true)
  /\ Prediction_1755397003498_start.start_of (Raised true false "timeout")
     = PrintsNoData
  /\ Prediction_1755397014428_start.start_of (Raised true false "timeout")
     = PrintsNoData
  /\ WinLose_1755398410429_start.start_of (Raised true false "timeout")
     = ([[("error"%string, VStr "Error fetching data: timeout")]],
        PrintsNoData).
Proof.
  split; [left; reflexivity |].
  apply (proj1 (X12_failed_fetch true false "timeout")). left. reflexivity.
Defined.

(** ** The typed response is the JSON response *)

(** On a response of the typed shape, the test on the JSON value and the
    typed test agree: the body is entered with the list under data.list
    when there is one, and the else branch is taken otherwise, so that a
    returned response makes each script start as [main] says. *)
Lemma typed_envelope_agrees (data : response) :
  (forall issues, has_issues data issues ->
     envelope (json_of_response data)
     = Ok (Some (JList (json_of_record <$> issues)))
     /\ Prediction_1755397003498_start.start_of (Returned (json_of_response data))
        = EntersBody (JList (json_of_record <$> issues)))
  /\ ((~ exists issues, has_issues data issues) ->
      envelope (json_of_response data) = Ok None
      /\ Prediction_1755397003498_start.start_of (Returned (json_of_response data))
         = PrintsNoData
      /\ Prediction_1755397003498.main data = Printed no_data).
Proof.
  assert (forall issues, has_issues data issues ->
            envelope (json_of_response data)
            = Ok (Some (JList (json_of_record <$> issues)))) as Hyes.
  { intros issues (d & Hd & Hl). unfold envelope, json_of_response.
    assert ((json_of_payload <$> data) !! "data"%string
            = Some (json_of_payload d)) as Hd'
      by (rewrite lookup_fmap, Hd; reflexivity).
    rewrite (truthy_obj_lookup _ _ _ Hd'). cbn [py_in py_subscript bind].
    rewrite Hd'. cbn [bind]. unfold json_of_payload at 1 2.
    cbn [py_in py_subscript bind]. rewrite lookup_fmap, Hl. reflexivity. }
  assert ((~ exists issues, has_issues data issues) ->
          envelope (json_of_response data) = Ok None) as Hno.
  { intros Hmissing. unfold envelope, json_of_response.
    destruct (truthy (JObj (json_of_payload <$> data))); [| reflexivity].
    cbn [py_in py_subscript bind]. rewrite lookup_fmap.
    destruct (data !! "data"%string) as [d |] eqn:Hd; [| reflexivity].
    cbn [fmap option_fmap option_map bind]. unfold json_of_payload at 1.
    cbn [py_in py_subscript bind]. rewrite lookup_fmap.
    destruct (d !! "list"%string) as [issues |] eqn:Hl; [| reflexivity].
    destruct Hmissing. exists issues, d. auto. }
  split.
  - intros issues Hhas. split; [apply Hyes, Hhas |].
    unfold Prediction_1755397003498_start.start_of,
      Prediction_1755397003498_start.fetch_data, dispatch.
    rewrite (Hyes issues Hhas). reflexivity.
  - intros Hmissing. split; [apply Hno, Hmissing |]. split.
    + unfold Prediction_1755397003498_start.start_of,
        Prediction_1755397003498_start.fetch_data, dispatch.
      rewrite (Hno Hmissing). reflexivity.
    + unfold Prediction_1755397003498.main, with_issues.
      destruct (data !! "data"%string) as [d |] eqn:Hd; [| reflexivity].
      destruct (d !! "list"%string) as [issues |] eqn:Hl; [| reflexivity].
      destruct Hmissing. exists issues, d. auto.
Qed.

(** ** Histories of single digits *)

Lemma single_digit_history (issues : list record) :
  Forall single_digit_number issues ->
  is_digit_string (all_numbers_str issues) = true
  /\ String.length (all_numbers_str issues) = List.length issues.
Proof.
  unfold all_numbers_str.
  induction 1 as [| r issues (c & Hc & Hr) _ [IHd IHl]]; [split; reflexivity |].
  cbn [map str_join List.length]. rewrite Hr.
  change (String c EmptyString +:+ ?s) with (String c s).
  cbn [is_digit_string String.length]. rewrite Hc, IHd, IHl.
  split; reflexivity.
Qed.

(** X13: when every number is a single digit, the digit string has one
    character per record; with five records or more (and readable issue
    numbers) a Mode A script therefore prints a result exactly when the
    number of the first record is not 0, and ends with an uncaught
    IndexError when it is. *)
Theorem X13_single_digit_history (issues : list record) (next : string) :
  Forall single_digit_number issues ->
  (5 <= List.length issues)%nat ->
  next_issue_number issues = Ok next ->
  let first := digit_at (all_numbers_str issues) 0 in
  ((exists r, Prediction_1755397003498.result issues = Ok r) <-> first <> 0)
  /\ ((exists r, Prediction_1755397014428.result issues = Ok r) <-> first <> 0)
  /\ (first = 0 ->
      Prediction_1755397003498.result issues = Raise IndexError
      /\ Prediction_1755397014428.result issues = Raise IndexError).
Proof.
  intros Hsingle Hlen Hnext first.
  destruct (single_digit_history issues Hsingle) as [Hd Hl].
  set (digits := all_numbers_str issues) in *.
  assert (digits <> EmptyString) as Hne.
  { intros H. rewrite H in Hl. cbn in Hl. lia. }
  pose proof (digit_at_range digits 0 Hd) as Hrange. fold first in Hrange.
  assert (py_len digits = Z.of_nat (List.length issues)) as Hpl
    by (unfold py_len; rewrite Hl; reflexivity).
  assert (first = 0 ->
          Prediction_1755397003498.result issues = Raise IndexError
          /\ Prediction_1755397014428.result issues = Raise IndexError) as Hbad.
  { intros Hz. rewrite result_1_blocks, result_2_blocks. fold digits.
    rewrite Hnext, (result_digit_far digits Hne Hd (or_introl Hz)).
    split; reflexivity. }
  assert (first <> 0 ->
          (exists r, Prediction_1755397003498.result issues = Ok r)
          /\ (exists r, Prediction_1755397014428.result issues = Ok r)) as Hok.
  { intros Hnz.
    assert (exists d, result_digit digits = Ok d) as [d Hdig].
    { destruct (Z_le_gt_dec first (py_len digits)) as [Hle | Hgt].
      - eexists. apply (result_digit_in_range digits Hne Hd).
        fold first. lia.
      - eexists. apply (result_digit_wrapped digits Hne Hd).
        fold first. lia. }
    rewrite result_1_blocks, result_2_blocks. fold digits.
    rewrite Hnext, Hdig, (int_of_string_digits digits Hd Hne). cbn [bind].
    split; eexists; reflexivity. }
  split; [| split; [| exact Hbad]].
  - split; [| intros H; apply (Hok H)].
    intros [r Hr] Hz. destruct (Hbad Hz) as [Hb _]. congruence.
  - split; [| intros H; apply (Hok H)].
    intros [r Hr] Hz. destruct (Hbad Hz) as [_ Hb]. congruence.
Qed.

Lemma history_five_single : Forall single_digit_number history_five.
Proof.
  repeat constructor; eexists; (split; [| vm_compute; reflexivity]); reflexivity.
Qed.

Lemma X13_single_digit_history_witness :
  Forall single_digit_number history_five
  /\ (5 <= List.length history_five)%nat
  /\ next_issue_number history_five = Ok "206"%string
  /\ ((exists r, Prediction_1755397003498.result history_five = Ok r)
      <-> digit_at (all_numbers_str history_five) 0 <> 0).
Proof.
  assert (next_issue_number history_five = Ok "206"%string) as H
    by (vm_compute; reflexivity).
  split; [exact history_five_single |]. split; [cbn; lia |].
  split; [exact H |].
  apply (X13_single_digit_history history_five "206"%string
           history_five_single ltac:(cbn; lia) H).
Defined.

(** ** When "No data available." is printed, on any JSON response *)

Lemma py_in_false_iff (key : string) (c : json) :
  py_in key c = Ok false <-> lacks key c.
Proof.
  unfold lacks. split.
  - destruct c as [| b | z | s | l | m]; cbn [py_in]; try discriminate.
    + intros [= H]. left. eauto.
    + intros [= H]. right. left. eauto.
    + destruct (m !! key) eqn:Hk; [discriminate |]. intros _.
      right. right. eauto.
  - intros [(s & -> & H) | [(l & -> & H) | (m & -> & H)]]; cbn [py_in];
      rewrite H; reflexivity.
Qed.

Lemma envelope_none_iff (data : json) :
  envelope data = Ok None <-> takes_else data.
Proof.
  unfold takes_else. split.
  - unfold envelope. destruct (truthy data) eqn:Ht; [| left; reflexivity].
    destruct (py_in "data" data) as [[|] | e] eqn:Hin; cbn [bind];
      [| intros _; right; left; apply py_in_false_iff, Hin | discriminate].
    destruct data as [| b | z | s | l | m]; cbn [py_subscript bind];
      try discriminate.
    cbn [py_in] in Hin.
    destruct (m !! "data"%string) as [d |] eqn:Hd; [| discriminate].
    cbn [bind].
    destruct (py_in "list" d) as [[|] | e] eqn:Hl; cbn [bind];
      [| intros _; right; right; exists m, d;
         split; [reflexivity | split; [exact Hd | apply py_in_false_iff, Hl]]
       | discriminate].
    destruct (py_subscript d "list"); discriminate.
  - intros [Ht | [Hlack | (m & d & -> & Hd & Hlack)]]; unfold envelope.
    + rewrite Ht. reflexivity.
    + apply py_in_false_iff in Hlack. rewrite Hlack.
      destruct (truthy data); reflexivity.
    + apply py_in_false_iff in Hlack.
      rewrite (truthy_obj_lookup m _ _ Hd). cbn [py_in py_subscript bind].
      rewrite Hd. cbn [bind]. rewrite Hlack. reflexivity.
Qed.

Lemma dispatch_no_data_iff (data : json) :
  dispatch (Got data) = PrintsNoData <-> envelope data = Ok None.
Proof.
  unfold dispatch. destruct (envelope data) as [[issues |] | e];
    split; intros H; try discriminate H; reflexivity.
Qed.

(** X9: on any JSON response, a script takes the else branch and prints
    "No data available." exactly when the response is null, false, 0 or
    empty, or is a string, list or object without 'data', or is an object
    whose entry data is a string, list or object without 'list' (a
    response such as the object with data null is not among these: it ends
    the script with a TypeError).  On a response of the typed shape, an
    object whose entries are objects whose entries are lists of records,
    this is exactly when there is no list under data.list, for each of the
    five scripts; with such a list a Mode A script prints its result or
    ends with an exception, and never prints an error mapping. *)
Theorem X9_no_data_iff :
  (forall data : json,
      (Prediction_1755397003498_start.start_of (Returned data) = PrintsNoData
       <-> takes_else data)
      /\ (Prediction_1755397014428_start.start_of (Returned data) = PrintsNoData
          <-> takes_else data)
      /\ (WinLose_1755398410429_start.start_of (Returned data)
          = ([], PrintsNoData) <-> takes_else data))
  /\ (forall data : response,
      let missing := ~ exists issues, has_issues data issues in
      (takes_else (json_of_response data) <-> missing)
      /\ (Prediction_1755397003498.main data = Printed no_data <-> missing)
      /\ (Prediction_1755397014428.main data = Printed no_data <-> missing)
      /\ (WinLose_1755398394420.main data = Printed no_data <-> missing)
      /\ (WinLose_1755398401488.main data = Printed no_data <-> missing)
      /\ (WinLose_1755398410429.main data = Printed no_data <-> missing)
      /\ (forall issues msg,
            has_issues data issues ->
            Prediction_1755397003498.main data
            <> Printed [("error"%string, VStr msg)]
            /\ Prediction_1755397014428.main data
               <> Printed [("error"%string, VStr msg)])).
Proof.
  split.
  - intros data.
    unfold Prediction_1755397003498_start.start_of,
      Prediction_1755397014428_start.start_of,
      WinLose_1755398410429_start.start_of,
      Prediction_1755397003498_start.fetch_data,
      Prediction_1755397014428_start.fetch_data,
      WinLose_1755398410429_start.fetch_data.
    rewrite <- envelope_none_iff, <- dispatch_no_data_iff.
    split; [reflexivity |]. split; [reflexivity |].
    split; [intros [= H]; exact H | intros H; rewrite H; reflexivity].
  - intros data missing. split; [| apply (typed_no_data_iff data)].
    rewrite <- envelope_none_iff.
    destruct (typed_envelope_agrees data) as [Hyes Hno]. split.
    + intros Hnone (issues & Hhas).
      destruct (Hyes issues Hhas) as [He _]. congruence.
    + intros Hm. apply (Hno Hm).
Qed.

Lemma X9_no_data_iff_witness :
  takes_else (JObj {["error"%string := JStr "Error fetching data: timeout"]})
  /\ Prediction_1755397003498_start.start_of
       (Returned (JObj {["error"%string := JStr "Error fetching data: timeout"]}))
     = PrintsNoData
  /\ has_issues (mk_response history_4917) history_4917
  /\ (forall msg,
        Prediction_1755397003498.main (mk_response history_4917)
        <> Printed [("error"%string, VStr msg)]
        /\ Prediction_1755397014428.main (mk_response history_4917)
           <> Printed [("error"%string, VStr msg)]).
Proof.
  assert (takes_else
            (JObj {["error"%string := JStr "Error fetching data: timeout"]}))
    as Helse.
  { right. left. right. right. eexists. split; [reflexivity |].
    vm_compute. reflexivity. }
  pose proof (has_issues_mk_response history_4917) as Hhas.
  split; [exact Helse |]. split.
  - apply (proj1 X9_no_data_iff). exact Helse.
  - split; [exact Hhas |]. intros msg.
    destruct (proj2 X9_no_data_iff (mk_response history_4917))
      as (_ & _ & _ & _ & _ & _ & Hnever).
    apply (Hnever history_4917 msg Hhas).
Defined.
